(** * Legacy-TLS session factory for the Korean public data portal

    A shallow embedding of [public_data_api_ssl_adapter.py] together with
    the parts of [ssl], [urllib3] and [requests] that the module drives:
    the TLS context and its setters, the OpenSSL cipher rule string, the
    adapter's pool manager, the session's adapter table and its
    case-insensitive header dictionary.

    Python objects that are mutated in place (sessions, header
    dictionaries) live in an explicit store and are referred to by
    location, so that aliasing between two sessions is visible.  Python
    exceptions are the [Raise] results of an error monad. *)

From Stdlib Require Import ZArith String Ascii List Bool Lia.
From stdpp Require Import gmap strings list fin_maps.

Local Open Scope string_scope.
Local Open Scope Z_scope.

(* ===================================================================== *)
(** ** Python exceptions *)
(* ===================================================================== *)

Inductive PyError : Type :=
| AttributeError (module attr : string)
| ValueError (msg : string)
| TypeError (msg : string)
| SSLError (msg : string)
| InvalidSchema (url : string)
| KeyError (key : string)
| ReferenceError (location : nat)
| ConnectionError (msg : string).

Inductive Result (A : Type) : Type :=
| Ok (a : A)
| Raise (e : PyError).
Arguments Ok {A} a.
Arguments Raise {A} e.

Definition Result_bind {A B} (f : A -> Result B) (r : Result A) : Result B :=
  match r with
  | Ok a => f a
  | Raise e => Raise e
  end.

#[global] Instance Result_mret : MRet Result := fun _ a => Ok a.
#[global] Instance Result_mbind : MBind Result := fun _ _ f r => Result_bind f r.

Definition is_Ok {A} (r : Result A) : bool :=
  match r with Ok _ => true | Raise _ => false end.

(* ===================================================================== *)
(** ** Strings: [str.join], [str.split], [str.lower], [str.startswith], [in] *)
(* ===================================================================== *)

(** [sep.join(parts)]. *)
Fixpoint join (sep : string) (parts : list string) : string :=
  match parts with
  | [] => ""
  | [p] => p
  | p :: rest => String.append p (String.append sep (join sep rest))
  end.

(** [s.split(sep)] for a one-character separator. *)
Fixpoint split_on (sep : ascii) (s : string) : list string :=
  match s with
  | EmptyString => [""]
  | String c rest =>
      if Ascii.eqb c sep then "" :: split_on sep rest
      else match split_on sep rest with
           | [] => [String c ""]
           | w :: ws => String c w :: ws
           end
  end.

(** [str.lower] on the ASCII letters; other bytes are left as they are. *)
Definition lower_ascii (c : ascii) : ascii :=
  let n := nat_of_ascii c in
  if (Nat.leb 65 n && Nat.leb n 90)%bool then ascii_of_nat (n + 32) else c.

Fixpoint lower (s : string) : string :=
  match s with
  | EmptyString => EmptyString
  | String c rest => String (lower_ascii c) (lower rest)
  end.

(** [s.startswith(p)]. *)
Fixpoint startswith (p s : string) : bool :=
  match p, s with
  | EmptyString, _ => true
  | String a p', String b s' => Ascii.eqb a b && startswith p' s'
  | String _ _, EmptyString => false
  end.

(** [needle in hay] on strings. *)
Fixpoint contains (needle hay : string) : bool :=
  startswith needle hay ||
  match hay with
  | EmptyString => false
  | String _ hay' => contains needle hay'
  end.

(* ===================================================================== *)
(** ** The [ssl] module *)
(* ===================================================================== *)

(** [ssl.TLSVersion]. *)
Inductive TLSVersion : Type :=
| MINIMUM_SUPPORTED
| SSLv3
| TLSv1
| TLSv1_1
| TLSv1_2
| TLSv1_3
| MAXIMUM_SUPPORTED.

(** The integer value of each member of the enumeration; for the concrete
    protocols it is the version number that goes on the wire. *)
Definition TLSVersion_value (v : TLSVersion) : Z :=
  match v with
  | MINIMUM_SUPPORTED => -2
  | SSLv3 => 768
  | TLSv1 => 769
  | TLSv1_1 => 770
  | TLSv1_2 => 771
  | TLSv1_3 => 772
  | MAXIMUM_SUPPORTED => -1
  end.

(** [ssl.VerifyMode]. *)
Inductive VerifyMode : Type :=
| CERT_NONE
| CERT_OPTIONAL
| CERT_REQUIRED.

(** A cipher suite for TLS 1.2 and below as the TLS library knows it:
    its OpenSSL name and whether it belongs to the [aNULL] (no
    authentication) and [eNULL] (no encryption) classes.  The suites of
    TLS 1.3 are configured by another call, are not touched by the rule
    string, and are not part of the model. *)
Record CipherSuite : Type := {
  cs_name : string;
  cs_aNULL : bool;
  cs_eNULL : bool
}.

(** [ssl.SSLContext]: the attributes the adapter touches.  [cipher_rule]
    is the rule string last handed to [set_ciphers], [ciphers] the
    ordered list of suites for TLS 1.2 and below that it enabled.  (The
    library's [get_ciphers] reports this list together with the TLS 1.3
    suites, which [set_ciphers] does not govern.) *)
Record SSLContext : Type := {
  minimum_version : TLSVersion;
  maximum_version : TLSVersion;
  cipher_rule : string;
  ciphers : list CipherSuite;
  check_hostname : bool;
  verify_mode : VerifyMode;
  options : Z
}.

(** What the [ssl] module of the running interpreter provides: the two
    option constants may be absent, and the linked TLS library implements
    some list of cipher suites for TLS 1.2 and below. *)
Record ssl_module : Type := {
  OP_LEGACY_SERVER_CONNECT : option Z;
  OP_DONT_INSERT_EMPTY_FRAGMENTS : option Z;
  implemented_ciphers : list CipherSuite
}.

(** [ssl.NAME]: a missing attribute raises [AttributeError]. *)
Definition getattr_ssl (name : string) (c : option Z) : Result Z :=
  match c with
  | Some v => Ok v
  | None => Raise (AttributeError "ssl" name)
  end.

(** [hasattr(ssl, NAME)]. *)
Definition hasattr_ssl (c : option Z) : bool :=
  match c with Some _ => true | None => false end.

(** *** Attribute setters of [SSLContext] *)

(** [ctx.minimum_version = v] and [ctx.maximum_version = v] as plain
    assignments: the interpreter runs with its default warning filter
    (the deprecation warning for TLS 1.0 is a warning, not an
    exception) and the TLS library knows the version assigned. *)
Definition set_minimum_version (v : TLSVersion) (ctx : SSLContext) : SSLContext :=
  {| minimum_version := v;
     maximum_version := maximum_version ctx;
     cipher_rule := cipher_rule ctx;
     ciphers := ciphers ctx;
     check_hostname := check_hostname ctx;
     verify_mode := verify_mode ctx;
     options := options ctx |}.

Definition set_maximum_version (v : TLSVersion) (ctx : SSLContext) : SSLContext :=
  {| minimum_version := minimum_version ctx;
     maximum_version := v;
     cipher_rule := cipher_rule ctx;
     ciphers := ciphers ctx;
     check_hostname := check_hostname ctx;
     verify_mode := verify_mode ctx;
     options := options ctx |}.

(** [ctx.check_hostname = b]: enabling the check on a context that does
    not verify certificates switches verification on as well. *)
Definition set_check_hostname (b : bool) (ctx : SSLContext) : SSLContext :=
  {| minimum_version := minimum_version ctx;
     maximum_version := maximum_version ctx;
     cipher_rule := cipher_rule ctx;
     ciphers := ciphers ctx;
     check_hostname := b;
     verify_mode :=
       match b, verify_mode ctx with
       | true, CERT_NONE => CERT_REQUIRED
       | _, m => m
       end;
     options := options ctx |}.

(** [ctx.verify_mode = m]: [CERT_NONE] is refused with [ValueError]
    while [check_hostname] is still enabled. *)
Definition set_verify_mode (m : VerifyMode) (ctx : SSLContext) : Result SSLContext :=
  match m, check_hostname ctx with
  | CERT_NONE, true =>
      Raise (ValueError
        "Cannot set verify_mode to CERT_NONE when check_hostname is enabled.")
  | _, _ =>
      Ok {| minimum_version := minimum_version ctx;
            maximum_version := maximum_version ctx;
            cipher_rule := cipher_rule ctx;
            ciphers := ciphers ctx;
            check_hostname := check_hostname ctx;
            verify_mode := m;
            options := options ctx |}
  end.

(** [ctx.options |= flag], for flags that are option constants of the
    [ssl] module (they fit the machine word the library keeps them
    in). *)
Definition or_options (flag : Z) (ctx : SSLContext) : SSLContext :=
  {| minimum_version := minimum_version ctx;
     maximum_version := maximum_version ctx;
     cipher_rule := cipher_rule ctx;
     ciphers := ciphers ctx;
     check_hostname := check_hostname ctx;
     verify_mode := verify_mode ctx;
     options := Z.lor (options ctx) flag |}.

(** *** The cipher rule string

    The rule string is a [:]-separated list.  A bare word enables the
    matching suites (appending those not yet enabled), [!word] removes
    the matching suites for good, [-word] removes them but lets a later
    rule bring them back, [+word] moves the enabled matching suites to
    the end.  The words [aNULL] and [eNULL] (also [NULL]) stand for the
    two classes; any other word is a suite name. *)

Inductive RuleOp : Type := RAdd | RKill | RDel | RMoveEnd.

Definition parse_rule (tok : string) : RuleOp * string :=
  match tok with
  | String "!" w => (RKill, w)
  | String "-" w => (RDel, w)
  | String "+" w => (RMoveEnd, w)
  | _ => (RAdd, tok)
  end.

Definition cipher_matches (word : string) (c : CipherSuite) : bool :=
  if String.eqb word "aNULL" then cs_aNULL c
  else if (String.eqb word "eNULL" || String.eqb word "NULL")%bool then cs_eNULL c
  else String.eqb word (cs_name c).

Definition enabled_name (active : list CipherSuite) (c : CipherSuite) : bool :=
  existsb (fun a => String.eqb (cs_name a) (cs_name c)) active.

(** One rule applied to (suites still available, suites enabled so far). *)
Definition apply_rule (st : list CipherSuite * list CipherSuite) (tok : string)
  : list CipherSuite * list CipherSuite :=
  let '(pool, active) := st in
  if String.eqb tok "" then st else
  let '(op, word) := parse_rule tok in
  let hit := cipher_matches word in
  let miss := fun c => negb (hit c) in
  match op with
  | RAdd =>
      (pool,
       (active ++ List.filter (fun c => hit c && negb (enabled_name active c))%bool pool)%list)
  | RKill => (List.filter miss pool, List.filter miss active)
  | RDel => (pool, List.filter miss active)
  | RMoveEnd => (pool, (List.filter miss active ++ List.filter hit active)%list)
  end.

Definition select_ciphers (implemented : list CipherSuite) (rule : string)
  : list CipherSuite :=
  snd (fold_left apply_rule (split_on ":" rule) (implemented, [])).

(** [ctx.set_ciphers(rule)]: the rule string decides the suites for
    TLS 1.2 and below; when it selects none of them the call raises
    [SSLError]. *)
Definition set_ciphers (ssl : ssl_module) (rule : string) (ctx : SSLContext)
  : Result SSLContext :=
  match select_ciphers (implemented_ciphers ssl) rule with
  | [] => Raise (SSLError "No cipher can be selected.")
  | sel =>
      Ok {| minimum_version := minimum_version ctx;
            maximum_version := maximum_version ctx;
            cipher_rule := rule;
            ciphers := sel;
            check_hostname := check_hostname ctx;
            verify_mode := verify_mode ctx;
            options := options ctx |}
  end.

(** A concrete protocol version lies within the bounds of a context;
    the two symbolic bounds stand for "no bound". *)
Definition version_permitted (ctx : SSLContext) (v : TLSVersion) : bool :=
  match v with
  | MINIMUM_SUPPORTED | MAXIMUM_SUPPORTED => false
  | _ =>
      (match minimum_version ctx with
       | MINIMUM_SUPPORTED => true
       | MAXIMUM_SUPPORTED => Z.eqb (TLSVersion_value v) (TLSVersion_value TLSv1_3)
       | lo => Z.leb (TLSVersion_value lo) (TLSVersion_value v)
       end)
      &&
      (match maximum_version ctx with
       | MAXIMUM_SUPPORTED => true
       | MINIMUM_SUPPORTED => Z.eqb (TLSVersion_value v) (TLSVersion_value SSLv3)
       | hi => Z.leb (TLSVersion_value v) (TLSVersion_value hi)
       end)
  end.

(* ===================================================================== *)
(** ** Values, keyword arguments and the platform *)
(* ===================================================================== *)

(** The Python values that travel through positional and keyword arguments. *)
#[warnings="-register-all"] Inductive PyVal : Type :=
| VNone
| VBool (b : bool)
| VInt (z : Z)
| VStr (s : string)
| VDict (items : list (string * PyVal))
| VContext (ctx : SSLContext).

(** Everything the module takes from its surroundings: the [ssl] module
    of the interpreter, the context [create_urllib3_context()] hands out
    (a new object on every call, with the library's defaults), and the
    headers [requests] puts on a new session. *)
Record Platform : Type := {
  ssl : ssl_module;
  create_urllib3_context : SSLContext;
  default_headers : list (string * string)
}.

(* ===================================================================== *)
(** ** [PublicDataApiSSLAdapter.init_poolmanager] *)
(* ===================================================================== *)

Definition weak_ciphers : list string :=
  [ "AES128-SHA";
    "AES256-SHA";
    "DHE-RSA-AES128-SHA";
    "DHE-RSA-AES256-SHA";
    "DES-CBC3-SHA" ].

Definition cipher_string : string :=
  String.append (join ":" weak_ciphers) ":!aNULL:!eNULL".

(** The body of [init_poolmanager] up to the assignment into [kwargs]:
    the context [ctx] as it stands when it is stored. *)
Definition legacy_context (P : Platform) : Result SSLContext :=
  let ctx := create_urllib3_context P in
  let ctx := set_minimum_version TLSv1 ctx in
  let ctx := set_maximum_version TLSv1_2 ctx in
  ctx ← set_ciphers (ssl P) cipher_string ctx;
  let ctx := set_check_hostname false ctx in
  ctx ← set_verify_mode CERT_NONE ctx;
  flag ← getattr_ssl "OP_LEGACY_SERVER_CONNECT" (OP_LEGACY_SERVER_CONNECT (ssl P));
  let ctx := or_options flag ctx in
  if hasattr_ssl (OP_DONT_INSERT_EMPTY_FRAGMENTS (ssl P)) then
    flag ← getattr_ssl "OP_DONT_INSERT_EMPTY_FRAGMENTS"
             (OP_DONT_INSERT_EMPTY_FRAGMENTS (ssl P));
    Ok (or_options flag ctx)
  else Ok ctx.

(** The context the adapter would store when both of the things that can
    go wrong do not: [sel] is what the rule string selected and [flag]
    the value of [OP_LEGACY_SERVER_CONNECT]. *)
Definition configured (P : Platform) (sel : list CipherSuite) (flag : Z) : SSLContext :=
  {| minimum_version := TLSv1;
     maximum_version := TLSv1_2;
     cipher_rule := cipher_string;
     ciphers := sel;
     check_hostname := false;
     verify_mode := CERT_NONE;
     options :=
       match OP_DONT_INSERT_EMPTY_FRAGMENTS (ssl P) with
       | Some extra => Z.lor (Z.lor (options (create_urllib3_context P)) flag) extra
       | None => Z.lor (options (create_urllib3_context P)) flag
       end |}.

(** The arguments [init_poolmanager] passes on to
    [super().init_poolmanager] (all positional and keyword arguments). *)
Definition init_poolmanager_forward (P : Platform)
    (args : list PyVal) (kwargs : gmap string PyVal)
  : Result (list PyVal * gmap string PyVal) :=
  ctx ← legacy_context P;
  Ok (args, <["ssl_context" := VContext ctx]> kwargs).

(** [urllib3.PoolManager]: its constructor is
    [__init__(self, num_pools=10, headers=None, **connection_pool_kw)],
    so [num_pools] and [headers] are parameters of the manager itself
    and every other keyword, [maxsize] and [block] among them, is kept
    in [connection_pool_kw] for the connection pools. *)
Record PoolManager : Type := {
  num_pools : PyVal;
  pool_headers : PyVal;
  connection_pool_kw : gmap string PyVal
}.

(** Truth value of a Python value. *)
Definition truthy (v : PyVal) : bool :=
  match v with
  | VNone => false
  | VBool b => b
  | VInt z => negb (Z.eqb z 0)
  | VStr s => negb (String.eqb s "")
  | VDict items => match items with [] => false | _ => true end
  | VContext _ => true
  end.

(** The constructor call with the keywords [kw]:
    [self.headers = headers or {}], and [self.connection_pool_kw] is
    what is left of the keywords. *)
Definition PoolManager_new (kw : gmap string PyVal) : PoolManager :=
  {| num_pools := default (VInt 10) (kw !! "num_pools");
     pool_headers :=
       (let headers := default VNone (kw !! "headers") in
        if truthy headers then headers else VDict []);
     connection_pool_kw := delete "headers" (delete "num_pools" kw) |}.

(** Binding of one named parameter of a Python call: positionally, by
    keyword (which then leaves the remaining keywords), or by default. *)
Definition bind_param (name : string) (positional : option PyVal)
    (kw : gmap string PyVal) (default : option PyVal)
  : Result (PyVal * gmap string PyVal) :=
  match positional, kw !! name with
  | Some _, Some _ => Raise (TypeError "got multiple values for argument")
  | Some v, None => Ok (v, kw)
  | None, Some v => Ok (v, delete name kw)
  | None, None =>
      match default with
      | Some d => Ok (d, kw)
      | None => Raise (TypeError "missing required positional argument")
      end
  end.

(** [HTTPAdapter.init_poolmanager(self, connections, maxsize,
    block=False, **pool_kwargs)], which builds
    [PoolManager(num_pools=connections, maxsize=maxsize, block=block,
    **pool_kwargs)]; a [num_pools] among [pool_kwargs] makes that call
    a [TypeError].  (The three named values are also kept on the adapter
    for pickling, which is left out.) *)
Definition HTTPAdapter_init_poolmanager
    (args : list PyVal) (kwargs : gmap string PyVal) : Result PoolManager :=
  if (3 <? length args)%nat
  then Raise (TypeError "too many positional arguments")
  else
    '(connections, kw) ← bind_param "connections" (args !! 0%nat) kwargs None;
    '(maxsize, kw) ← bind_param "maxsize" (args !! 1%nat) kw None;
    '(block, kw) ← bind_param "block" (args !! 2%nat) kw (Some (VBool false));
    match kw !! "num_pools" with
    | Some _ => Raise (TypeError "got multiple values for keyword argument")
    | None =>
        Ok (PoolManager_new
              (<["num_pools" := connections]>
                 (<["maxsize" := maxsize]> (<["block" := block]> kw))))
    end.

Definition init_poolmanager (P : Platform)
    (args : list PyVal) (kwargs : gmap string PyVal) : Result PoolManager :=
  '(args, kwargs) ← init_poolmanager_forward P args kwargs;
  HTTPAdapter_init_poolmanager args kwargs.

(** The two adapter classes in play and an adapter object. *)
Inductive AdapterClass : Type :=
| HTTPAdapter
| PublicDataApiSSLAdapter.

Record Adapter : Type := {
  adapter_class : AdapterClass;
  poolmanager : PoolManager
}.

Definition DEFAULT_POOLSIZE : Z := 10.
Definition DEFAULT_POOLBLOCK : bool := false.

(** [cls()]: [HTTPAdapter.__init__] ends with
    [self.init_poolmanager(pool_connections, pool_maxsize,
    block=pool_block)], dispatched on the class of [self]. *)
Definition new_adapter (P : Platform) (cls : AdapterClass) : Result Adapter :=
  let args := [VInt DEFAULT_POOLSIZE; VInt DEFAULT_POOLSIZE] in
  let kwargs : gmap string PyVal := {[ "block" := VBool DEFAULT_POOLBLOCK ]} in
  pm ← match cls with
       | HTTPAdapter => HTTPAdapter_init_poolmanager args kwargs
       | PublicDataApiSSLAdapter => init_poolmanager P args kwargs
       end;
  Ok {| adapter_class := cls; poolmanager := pm |}.

(** The TLS context an adapter's pool manager was given, if any. *)
Definition adapter_ssl_context (a : Adapter) : option PyVal :=
  connection_pool_kw (poolmanager a) !! "ssl_context".

(** *** What the library does with the context when it connects *)





(** The adapter [HTTPAdapter()] of [requests]: default pool sizes and no
    TLS context of its own. *)
Definition plain_adapter : Adapter :=
  {| adapter_class := HTTPAdapter;
     poolmanager :=
       {| num_pools := VInt DEFAULT_POOLSIZE;
          pool_headers := VDict [];
          connection_pool_kw :=
            {[ "maxsize" := VInt DEFAULT_POOLSIZE;
               "block" := VBool DEFAULT_POOLBLOCK ]} |} |}.

(** The adapter [PublicDataApiSSLAdapter()] on a platform where
    [init_poolmanager] built the context [ctx]. *)
Definition legacy_adapter (ctx : SSLContext) : Adapter :=
  {| adapter_class := PublicDataApiSSLAdapter;
     poolmanager :=
       {| num_pools := VInt DEFAULT_POOLSIZE;
          pool_headers := VDict [];
          connection_pool_kw :=
            <["ssl_context" := VContext ctx]>
              {[ "maxsize" := VInt DEFAULT_POOLSIZE;
                 "block" := VBool DEFAULT_POOLBLOCK ]} |} |}.

(* ===================================================================== *)
(** ** [requests]: header dictionaries, sessions and the object store *)
(* ===================================================================== *)

(** [requests.structures.CaseInsensitiveDict]: the lower-cased key maps
    to the key as it was written and the value. *)
Abbreviation CaseInsensitiveDict := (gmap string (string * string)).

Definition cid_setitem (k v : string) (d : CaseInsensitiveDict) : CaseInsensitiveDict :=
  <[lower k := (k, v)]> d.

Definition cid_getitem (d : CaseInsensitiveDict) (k : string) : option string :=
  snd <$> d !! lower k.

Definition cid_contains (d : CaseInsensitiveDict) (k : string) : bool :=
  match d !! lower k with Some _ => true | None => false end.

(** The keys as written, in the iteration order of the map. *)
Definition cid_keys (d : CaseInsensitiveDict) : list string :=
  (fun kv => fst (snd kv)) <$> map_to_list d.

Definition cid_clear (d : CaseInsensitiveDict) : CaseInsensitiveDict := ∅.

(** [d.update(mapping)]: one [__setitem__] per item, in order. *)
Definition cid_update (items : list (string * string)) (d : CaseInsensitiveDict)
  : CaseInsensitiveDict :=
  fold_left (fun d kv => cid_setitem (fst kv) (snd kv) d) items d.

(** An insertion-ordered dictionary with string keys ([OrderedDict]). *)
Fixpoint od_set {V} (k : string) (v : V) (d : list (string * V)) : list (string * V) :=
  match d with
  | [] => [(k, v)]
  | (k', v') :: rest =>
      if String.eqb k' k then (k', v) :: rest else (k', v') :: od_set k v rest
  end.

Fixpoint od_pop {V} (k : string) (d : list (string * V)) : option (V * list (string * V)) :=
  match d with
  | [] => None
  | (k', v') :: rest =>
      if String.eqb k' k then Some (v', rest)
      else match od_pop k rest with
           | Some (v, rest') => Some (v, (k', v') :: rest')
           | None => None
           end
  end.

(** Locations of the mutable objects. *)
Abbreviation loc := nat.

(** A [requests.Session] object: [headers] refers to its header
    dictionary, [adapters] is its ordered prefix table. *)
Record Session : Type := {
  headers : loc;
  adapters : list (string * Adapter)
}.

(** What can be observed from outside: sessions coming into being and
    the request methods called on them, with the arguments received. *)
Inductive Event : Type :=
| NewSession (s : loc)
| Call (method : string) (s : loc) (url : string) (kwargs : gmap string PyVal).

Record World : Type := {
  next_loc : loc;
  dicts : gmap loc CaseInsensitiveDict;
  sessions : gmap loc Session;
  trace : list Event
}.

(** [requests.Response], as far as the caller looks at it. *)
Record Response : Type := {
  status_code : Z;
  response_headers : list (string * string);
  body : string
}.

(** All of [Session.request], which is not opened up here: preparing
    the request, choosing the adapter for the URL, opening the
    connection and the exchange itself.  It returns a response or raises
    (also before anything is sent: [InvalidSchema] for a URL no adapter
    is mounted for, for one), depending on what has happened so far, the
    session as configured, its headers, the method, the URL and the
    request options.  Results about the request functions hold for
    every such function. *)
Definition Network : Type :=
  list Event -> Session -> CaseInsensitiveDict ->
  string -> string -> gmap string PyVal -> Result Response.

(** State and exceptions: a raised exception keeps the store as it was
    at the point of the raise. *)
Definition M (A : Type) : Type := World -> Result A * World.

#[global] Instance M_mret : MRet M := fun _ a w => (Ok a, w).
#[global] Instance M_mbind : MBind M := fun _ _ f m w =>
  match m w with
  | (Ok a, w') => f a w'
  | (Raise e, w') => (Raise e, w')
  end.

Definition lift {A} (r : Result A) : M A := fun w => (r, w).

Definition log (e : Event) : M unit := fun w =>
  (Ok tt, {| next_loc := next_loc w; dicts := dicts w;
             sessions := sessions w; trace := (trace w ++ [e])%list |}).

Definition alloc_dict (d : CaseInsensitiveDict) : M loc := fun w =>
  (Ok (next_loc w),
   {| next_loc := S (next_loc w); dicts := <[next_loc w := d]> (dicts w);
      sessions := sessions w; trace := trace w |}).

Definition alloc_session (s : Session) : M loc := fun w =>
  (Ok (next_loc w),
   {| next_loc := S (next_loc w); dicts := dicts w;
      sessions := <[next_loc w := s]> (sessions w); trace := trace w |}).

Definition read_session (s : loc) : M Session := fun w =>
  match sessions w !! s with
  | Some o => (Ok o, w)
  | None => (Raise (ReferenceError s), w)
  end.

Definition write_session (s : loc) (o : Session) : M unit := fun w =>
  (Ok tt, {| next_loc := next_loc w; dicts := dicts w;
             sessions := <[s := o]> (sessions w); trace := trace w |}).

Definition read_dict (h : loc) : M CaseInsensitiveDict := fun w =>
  match dicts w !! h with
  | Some d => (Ok d, w)
  | None => (Raise (ReferenceError h), w)
  end.

Definition write_dict (h : loc) (d : CaseInsensitiveDict) : M unit := fun w =>
  (Ok tt, {| next_loc := next_loc w; dicts := <[h := d]> (dicts w);
             sessions := sessions w; trace := trace w |}).

(** [Session.mount(prefix, adapter)] on the prefix table: set the entry,
    then move every shorter prefix behind it. *)
Definition mount_adapters (prefix : string) (adapter : Adapter)
    (table : list (string * Adapter)) : Result (list (string * Adapter)) :=
  let table := od_set prefix adapter table in
  let keys_to_move :=
    List.filter (fun k => (String.length k <? String.length prefix)%nat) (fst <$> table) in
  fold_left
    (fun acc key =>
       table ← acc;
       match od_pop key table with
       | Some (a, rest) => Ok (od_set key a rest)
       | None => Raise (KeyError key)
       end)
    keys_to_move (Ok table).

Definition mount (s : loc) (prefix : string) (adapter : Adapter) : M unit :=
  o ← read_session s;
  table ← lift (mount_adapters prefix adapter (adapters o));
  write_session s {| headers := headers o; adapters := table |}.

(** [Session.get_adapter(url)]: the first prefix, in table order, that
    the lower-cased URL starts with. *)
Fixpoint find_adapter (url : string) (table : list (string * Adapter)) : option Adapter :=
  match table with
  | [] => None
  | (prefix, adapter) :: rest =>
      if startswith (lower prefix) (lower url) then Some adapter
      else find_adapter url rest
  end.

Definition get_adapter (o : Session) (url : string) : Result Adapter :=
  match find_adapter url (adapters o) with
  | Some a => Ok a
  | None => Raise (InvalidSchema url)
  end.

(** [requests.Session()]: a new header dictionary holding the library's
    default headers, an empty prefix table, and a plain [HTTPAdapter]
    mounted for each of the two schemes. *)
Definition Session_new (P : Platform) : M loc :=
  h ← alloc_dict (cid_update (default_headers P) ∅);
  s ← alloc_session {| headers := h; adapters := [] |};
  _ ← log (NewSession s);
  a ← lift (new_adapter P HTTPAdapter);
  _ ← mount s "https://" a;
  a ← lift (new_adapter P HTTPAdapter);
  _ ← mount s "http://" a;
  mret s.

(** [session.headers.clear()] and [session.headers.update(items)]. *)
Definition headers_clear (s : loc) : M unit :=
  o ← read_session s;
  d ← read_dict (headers o);
  write_dict (headers o) (cid_clear d).

Definition headers_update (s : loc) (items : list (string * string)) : M unit :=
  o ← read_session s;
  d ← read_dict (headers o);
  write_dict (headers o) (cid_update items d).

(** [session.headers[k] = v]. *)
Definition headers_setitem (s : loc) (k v : string) : M unit :=
  o ← read_session s;
  d ← read_dict (headers o);
  write_dict (headers o) (cid_setitem k v d).

(** The header dictionary of a session as the store has it. *)
Definition session_headers (w : World) (s : loc) : option CaseInsensitiveDict :=
  o ← sessions w !! s; dicts w !! headers o.

(** [Session.request(method, url, ...)] on the session object and its
    header dictionary as the store has them. *)
Definition round_trip (net : Network) (o : Session) (d : CaseInsensitiveDict)
    (method url : string) (kwargs : gmap string PyVal) : M Response :=
  fun w => (net (trace w) o d method url kwargs, w).

Definition Session_request (net : Network) (s : loc) (method url : string)
    (kwargs : gmap string PyVal) : M Response :=
  o ← read_session s;
  d ← read_dict (headers o);
  round_trip net o d method url kwargs.

(** [Session.get(url, ...)]: [allow_redirects] defaults to [True]. *)
Definition Session_get (net : Network) (s : loc) (url : string)
    (kwargs : gmap string PyVal) : M Response :=
  _ ← log (Call "GET" s url kwargs);
  let kwargs :=
    match kwargs !! "allow_redirects" with
    | Some _ => kwargs
    | None => <["allow_redirects" := VBool true]> kwargs
    end in
  Session_request net s "GET" url kwargs.

(** [Session.post(url, data=None, json=None, ...)]. *)
Definition Session_post (net : Network) (s : loc) (url : string)
    (kwargs : gmap string PyVal) : M Response :=
  _ ← log (Call "POST" s url kwargs);
  let data := default VNone (kwargs !! "data") in
  let json := default VNone (kwargs !! "json") in
  Session_request net s "POST" url (<["data" := data]> (<["json" := json]> kwargs)).

(* ===================================================================== *)
(** ** The session factory and the two request functions *)
(* ===================================================================== *)

(** The dictionary literal of [create_public_data_api_session]. *)
Definition header_items : list (string * string) :=
  [ ("User-Agent", "User-Agent");
    ("Accept", "application/json, application/xml, text/plain, */*");
    ("Accept-Language", "ko-KR,ko;q=0.9,en;q=0.8");
    ("Accept-Encoding", "gzip, deflate, br");
    ("Connection", "keep-alive");
    ("Upgrade-Insecure-Requests", "1");
    ("Referer", "https://www.data.go.kr") ].

(** The header names a session is expected to carry (the list that
    [test_headers_configuration] checks). *)
Definition expected_headers : list string :=
  [ "User-Agent";
    "Accept";
    "Accept-Language";
    "Accept-Encoding";
    "Connection";
    "Upgrade-Insecure-Requests";
    "Referer" ].

(** The method [PublicDataApiSSLAdapter.create_public_data_api_session];
    it makes no use of [self]. *)
Definition method_create_public_data_api_session (P : Platform) (self : Adapter)
  : M loc :=
  session ← Session_new P;
  adapter ← lift (new_adapter P PublicDataApiSSLAdapter);
  _ ← mount session "https://" adapter;
  _ ← headers_clear session;
  _ ← headers_update session header_items;
  mret session.

(** The module-level [create_public_data_api_session()]. *)
Definition create_public_data_api_session (P : Platform) : M loc :=
  adapter ← lift (new_adapter P PublicDataApiSSLAdapter);
  method_create_public_data_api_session P adapter.

Definition public_data_api_get (P : Platform) (net : Network)
    (url : string) (kwargs : gmap string PyVal) : M Response :=
  session ← create_public_data_api_session P;
  Session_get net session url kwargs.

Definition public_data_api_post (P : Platform) (net : Network)
    (url : string) (kwargs : gmap string PyVal) : M Response :=
  session ← create_public_data_api_session P;
  Session_post net session url kwargs.

(** The reading of the two request functions in prose: build one
    session with the factory and, if that worked, call the given method
    of that session once with the same URL and options, handing back
    whatever it returns. *)
Definition one_request_on_new_session (P : Platform)
    (method : loc -> string -> gmap string PyVal -> M Response)
    (url : string) (opts : gmap string PyVal) : M Response :=
  fun w =>
    match create_public_data_api_session P w with
    | (Ok session, w1) => method session url opts w1
    | (Raise e, w1) => (Raise e, w1)
    end.

(* ===================================================================== *)
(** ** Concrete platforms to run the model on *)
(* ===================================================================== *)

Definition suite (name : string) (anon null : bool) : CipherSuite :=
  {| cs_name := name; cs_aNULL := anon; cs_eNULL := null |}.

(** A TLS library that still implements the old suites, two anonymous
    ones and a null one among them. *)
Definition legacy_suites : list CipherSuite :=
  [ suite "ECDHE-RSA-AES256-GCM-SHA384" false false;
    suite "DHE-RSA-AES256-SHA" false false;
    suite "ADH-AES128-SHA" true false;
    suite "AES256-SHA" false false;
    suite "NULL-SHA" false true;
    suite "AES128-SHA" false false;
    suite "AECDH-NULL-SHA" true true;
    suite "DES-CBC3-SHA" false false;
    suite "DHE-RSA-AES128-SHA" false false ].

(** The context of [create_urllib3_context()] with the library defaults:
    TLS 1.2 and up, certificates and host names checked. *)
Definition urllib3_default_context : SSLContext :=
  {| minimum_version := TLSv1_2;
     maximum_version := MAXIMUM_SUPPORTED;
     cipher_rule := "DEFAULT";
     ciphers := [suite "ECDHE-RSA-AES256-GCM-SHA384" false false];
     check_hostname := true;
     verify_mode := CERT_REQUIRED;
     options := 0x2024000 |}.

Definition requests_default_headers : list (string * string) :=
  [ ("User-Agent", "python-requests/2.32.3");
    ("Accept-Encoding", "gzip, deflate");
    ("Accept", "*/*");
    ("Connection", "keep-alive") ].

Definition platform_with (legacy fragments : option Z) : Platform :=
  {| ssl := {| OP_LEGACY_SERVER_CONNECT := legacy;
               OP_DONT_INSERT_EMPTY_FRAGMENTS := fragments;
               implemented_ciphers := legacy_suites |};
     create_urllib3_context := urllib3_default_context;
     default_headers := requests_default_headers |}.

(** Both constants present, as on a current interpreter. *)
Definition full_platform : Platform := platform_with (Some 0x4) (Some 0x800).

(** [OP_DONT_INSERT_EMPTY_FRAGMENTS] missing. *)
Definition no_fragments_platform : Platform := platform_with (Some 0x4) None.

(** [OP_LEGACY_SERVER_CONNECT] missing. *)
Definition no_legacy_platform : Platform := platform_with None (Some 0x800).

Definition empty_world : World :=
  {| next_loc := 0%nat; dicts := ∅; sessions := ∅; trace := [] |}.

(** Every request is answered with an empty 200. *)
Definition echo_network : Network :=
  fun _ _ _ _ _ _ => Ok {| status_code := 200; response_headers := []; body := "" |}.

(** A store in which allocation has been by [next_loc] throughout:
    every object lies below [next_loc], and the header dictionary of
    every session is there. *)
Definition store_wf (w : World) : Prop :=
  (forall l d, dicts w !! l = Some d -> (l < next_loc w)%nat) /\
  (forall s o, sessions w !! s = Some o ->
     (s < next_loc w)%nat /\ is_Some (dicts w !! headers o)).

(** A TLS library that has dropped the old suites altogether. *)
Definition modern_suites : list CipherSuite :=
  [ suite "ECDHE-RSA-AES256-GCM-SHA384" false false;
    suite "ECDHE-RSA-CHACHA20-POLY1305" false false;
    suite "ECDHE-ECDSA-AES128-GCM-SHA256" false false ].

Definition modern_platform : Platform :=
  {| ssl := {| OP_LEGACY_SERVER_CONNECT := Some 0x4;
               OP_DONT_INSERT_EMPTY_FRAGMENTS := Some 0x800;
               implemented_ciphers := modern_suites |};
     create_urllib3_context := urllib3_default_context;
     default_headers := requests_default_headers |}.

(** Every request fails: the server is down. *)
Definition dead_network : Network :=
  fun _ _ _ _ _ _ => Raise (ConnectionError "Connection refused").

(* ===================================================================== *)
(** * Properties *)
(* ===================================================================== *)

(** ** The TLS context *)

Lemma legacy_context_unfold (P : Platform) :
  legacy_context P =
  match select_ciphers (implemented_ciphers (ssl P)) cipher_string with
  | [] => Raise (SSLError "No cipher can be selected.")
  | sel =>
      match OP_LEGACY_SERVER_CONNECT (ssl P) with
      | None => Raise (AttributeError "ssl" "OP_LEGACY_SERVER_CONNECT")
      | Some flag => Ok (configured P sel flag)
      end
  end.
Proof.
  unfold legacy_context, set_ciphers, configured.
  destruct (select_ciphers _ _) as [|c sel]; [reflexivity|].
  cbn.
  destruct (OP_LEGACY_SERVER_CONNECT (ssl P)) as [flag|]; [|reflexivity].
  cbn.
  destruct (OP_DONT_INSERT_EMPTY_FRAGMENTS (ssl P)); reflexivity.
Qed.

Lemma legacy_context_Ok (P : Platform) (ctx : SSLContext) :
  legacy_context P = Ok ctx ->
  exists sel flag,
    select_ciphers (implemented_ciphers (ssl P)) cipher_string = sel /\
    sel <> [] /\
    OP_LEGACY_SERVER_CONNECT (ssl P) = Some flag /\
    ctx = configured P sel flag.
Proof.
  rewrite legacy_context_unfold.
  destruct (select_ciphers _ _) as [|c sel] eqn:Hsel; [discriminate|].
  destruct (OP_LEGACY_SERVER_CONNECT (ssl P)) as [flag|]; [|discriminate].
  intros [= <-]. exists (c :: sel), flag. repeat split; congruence.
Qed.

Lemma init_poolmanager_forward_Ok (P : Platform) args kwargs args' kwargs' :
  init_poolmanager_forward P args kwargs = Ok (args', kwargs') ->
  exists ctx,
    legacy_context P = Ok ctx /\
    args' = args /\
    kwargs' = <["ssl_context" := VContext ctx]> kwargs.
Proof.
  unfold init_poolmanager_forward.
  destruct (legacy_context P) as [ctx|e]; cbn; [|discriminate].
  intros [= <- <-]. eauto.
Qed.

(** Whatever context sits under ["ssl_context"] after a successful
    forward is the configured one. *)
Lemma forwarded_context (P : Platform) args kwargs args' kwargs' ctx :
  init_poolmanager_forward P args kwargs = Ok (args', kwargs') ->
  kwargs' !! "ssl_context" = Some (VContext ctx) ->
  exists sel flag,
    select_ciphers (implemented_ciphers (ssl P)) cipher_string = sel /\
    sel <> [] /\
    OP_LEGACY_SERVER_CONNECT (ssl P) = Some flag /\
    ctx = configured P sel flag.
Proof.
  intros Hfw Hlook.
  destruct (init_poolmanager_forward_Ok _ _ _ _ _ Hfw) as (ctx' & Hctx & _ & ->).
  rewrite lookup_insert_eq in Hlook. injection Hlook as ->.
  by apply legacy_context_Ok.
Qed.

(** The versions that lie within TLS 1.0 .. TLS 1.2. *)
Lemma version_permitted_configured (P : Platform) sel flag (v : TLSVersion) :
  version_permitted (configured P sel flag) v = true <->
  769 <= TLSVersion_value v <= 771.
Proof.
  destruct v; cbn; split; intros H; try discriminate; try lia; reflexivity.
Qed.

(** *** The cipher rule string *)

Lemma cipher_string_tokens :
  split_on ":" cipher_string = (weak_ciphers ++ ["!aNULL"; "!eNULL"])%list.
Proof. reflexivity. Qed.

Lemma apply_rule_kill_aNULL (pool active : list CipherSuite) :
  apply_rule (pool, active) "!aNULL" =
  (List.filter (fun c => negb (cs_aNULL c)) pool,
   List.filter (fun c => negb (cs_aNULL c)) active).
Proof. reflexivity. Qed.

Lemma apply_rule_kill_eNULL (pool active : list CipherSuite) :
  apply_rule (pool, active) "!eNULL" =
  (List.filter (fun c => negb (cs_eNULL c)) pool,
   List.filter (fun c => negb (cs_eNULL c)) active).
Proof. reflexivity. Qed.

(** Rules only ever enable suites of the pool they started from. *)
Lemma apply_rule_sound (impl : list CipherSuite) st tok :
  (forall c, In c (fst st) -> In c impl) ->
  (forall c, In c (snd st) -> In c impl) ->
  (forall c, In c (fst (apply_rule st tok)) -> In c impl) /\
  (forall c, In c (snd (apply_rule st tok)) -> In c impl).
Proof.
  destruct st as [pool active]; cbn [fst snd]; intros Hp Ha.
  unfold apply_rule.
  destruct (String.eqb tok ""); [cbn; auto|].
  destruct (parse_rule tok) as [[] word]; cbn [fst snd]; split; intros c;
    rewrite ?in_app_iff, ?filter_In; intuition auto.
Qed.

Lemma fold_rules_sound (impl : list CipherSuite) toks st :
  (forall c, In c (fst st) -> In c impl) ->
  (forall c, In c (snd st) -> In c impl) ->
  forall c, In c (snd (fold_left apply_rule toks st)) -> In c impl.
Proof.
  revert st. induction toks as [|tok toks IH]; intros st Hp Ha; cbn; [done|].
  destruct (apply_rule_sound impl st tok Hp Ha) as [Hp' Ha'].
  by apply IH.
Qed.

(** A bare suite name appends the implemented suites of that name that
    are not enabled yet. *)
Lemma apply_rule_name (pool active : list CipherSuite) (tok : string) :
  In tok weak_ciphers ->
  apply_rule (pool, active) tok =
    (pool, (active ++ List.filter
              (fun c => String.eqb tok (cs_name c) && negb (enabled_name active c))
              pool)%list).
Proof.
  intros Hin. cbn in Hin.
  repeat (destruct Hin as [<-|Hin]; [reflexivity|]). destruct Hin.
Qed.

Lemma fold_names_enabled (toks : list string) pool active :
  (forall t, In t toks -> In t weak_ciphers) ->
  (forall c, In c active -> In (cs_name c) weak_ciphers) ->
  fst (fold_left apply_rule toks (pool, active)) = pool /\
  forall c, In c (snd (fold_left apply_rule toks (pool, active))) ->
            In (cs_name c) weak_ciphers.
Proof.
  revert active. induction toks as [|tok toks IH]; intros active Ht Ha; cbn [fold_left].
  - by split.
  - rewrite apply_rule_name by (apply Ht; by left).
    apply IH.
    + intros t Hin. apply Ht. by right.
    + intros c. rewrite in_app_iff, filter_In.
      intros [Hc|[_ Hc]]; [by apply Ha|].
      apply andb_true_iff in Hc as [Hc _]. apply String.eqb_eq in Hc as <-.
      apply Ht. by left.
Qed.

(** What the adapter's rule string selects from any list of implemented
    suites: nothing anonymous, nothing without encryption, and nothing
    but the five names, each an implemented suite. *)
Lemma select_cipher_string (impl : list CipherSuite) (c : CipherSuite) :
  In c (select_ciphers impl cipher_string) ->
  cs_aNULL c = false /\ cs_eNULL c = false /\
  In (cs_name c) weak_ciphers /\ In c impl.
Proof.
  intros Hin. split_and!.
  - revert Hin. unfold select_ciphers. rewrite cipher_string_tokens, fold_left_app.
    destruct (fold_left apply_rule weak_ciphers (impl, [])) as [pool active].
    cbn [fold_left]. rewrite apply_rule_kill_aNULL, apply_rule_kill_eNULL. cbn [snd].
    rewrite !filter_In. intros ((_ & Ha) & _). by apply negb_true_iff in Ha.
  - revert Hin. unfold select_ciphers. rewrite cipher_string_tokens, fold_left_app.
    destruct (fold_left apply_rule weak_ciphers (impl, [])) as [pool active].
    cbn [fold_left]. rewrite apply_rule_kill_aNULL, apply_rule_kill_eNULL. cbn [snd].
    rewrite !filter_In. intros (_ & He). by apply negb_true_iff in He.
  - revert Hin. unfold select_ciphers. rewrite cipher_string_tokens, fold_left_app.
    destruct (fold_names_enabled weak_ciphers impl []) as [_ Hnames]; [done|done|].
    destruct (fold_left apply_rule weak_ciphers (impl, [])) as [pool active].
    cbn [fold_left]. rewrite apply_rule_kill_aNULL, apply_rule_kill_eNULL. cbn [snd].
    rewrite !filter_In. intros ((Hc & _) & _). by apply Hnames.
  - revert Hin. unfold select_ciphers. by apply fold_rules_sound.
Qed.

(** *** Claims about the TLS context *)

(** C1. Every TLS context that [init_poolmanager] builds and forwards has
    its minimum protocol version set to TLS 1.0 and its maximum to
    TLS 1.2; the versions within its bounds are exactly those from
    TLS 1.0 to TLS 1.2, so nothing above TLS 1.2 or below TLS 1.0 can be
    negotiated. *)
Theorem C1_version_bounds (P : Platform) args kwargs args' kwargs' ctx :
  init_poolmanager_forward P args kwargs = Ok (args', kwargs') ->
  kwargs' !! "ssl_context" = Some (VContext ctx) ->
  minimum_version ctx = TLSv1 /\
  maximum_version ctx = TLSv1_2 /\
  (forall v, version_permitted ctx v = true <->
             TLSVersion_value TLSv1 <= TLSVersion_value v <= TLSVersion_value TLSv1_2) /\
  version_permitted ctx TLSv1_3 = false /\
  version_permitted ctx SSLv3 = false /\
  version_permitted ctx TLSv1 = true.
Proof.
  intros Hfw Hlook.
  destruct (forwarded_context _ _ _ _ _ _ Hfw Hlook) as (sel & flag & _ & _ & _ & ->).
  split_and!; try reflexivity.
  intros v. apply version_permitted_configured.
Qed.

Lemma C1_version_bounds_witness :
  exists ctx,
    minimum_version ctx = TLSv1 /\
    maximum_version ctx = TLSv1_2 /\
    (forall v, version_permitted ctx v = true <->
               TLSVersion_value TLSv1 <= TLSVersion_value v <= TLSVersion_value TLSv1_2) /\
    version_permitted ctx TLSv1_3 = false /\
    version_permitted ctx SSLv3 = false /\
    version_permitted ctx TLSv1 = true.
Proof.
  eexists.
  eapply (C1_version_bounds full_platform
            [VInt 10; VInt 10] {[ "block" := VBool false ]}).
  - vm_compute. reflexivity.
  - vm_compute. reflexivity.
Defined.

(** C2. Every TLS context that [init_poolmanager] builds carries exactly
    the rule string made of AES128-SHA, AES256-SHA, DHE-RSA-AES128-SHA,
    DHE-RSA-AES256-SHA and DES-CBC3-SHA (the 3DES suite) in this order,
    followed by the exclusions [!aNULL] and [!eNULL]; the suites it
    enables include no anonymous and no null suite, whatever the TLS
    library implements. *)
Theorem C2_cipher_list (P : Platform) args kwargs args' kwargs' ctx :
  init_poolmanager_forward P args kwargs = Ok (args', kwargs') ->
  kwargs' !! "ssl_context" = Some (VContext ctx) ->
  cipher_rule ctx =
    "AES128-SHA:AES256-SHA:DHE-RSA-AES128-SHA:DHE-RSA-AES256-SHA:DES-CBC3-SHA:!aNULL:!eNULL" /\
  split_on ":" (cipher_rule ctx) =
    [ "AES128-SHA"; "AES256-SHA"; "DHE-RSA-AES128-SHA"; "DHE-RSA-AES256-SHA";
      "DES-CBC3-SHA"; "!aNULL"; "!eNULL" ] /\
  ciphers ctx = select_ciphers (implemented_ciphers (ssl P)) (cipher_rule ctx) /\
  forall c, In c (ciphers ctx) ->
    cs_aNULL c = false /\ cs_eNULL c = false /\
    In (cs_name c) weak_ciphers /\ In c (implemented_ciphers (ssl P)).
Proof.
  intros Hfw Hlook.
  destruct (forwarded_context _ _ _ _ _ _ Hfw Hlook) as (sel & flag & Hsel & _ & _ & ->).
  cbn [cipher_rule ciphers configured].
  split_and!; try reflexivity; [by rewrite Hsel|].
  intros c Hin. subst sel. by apply select_cipher_string.
Qed.

Lemma C2_cipher_list_witness :
  exists ctx,
    cipher_rule ctx =
      "AES128-SHA:AES256-SHA:DHE-RSA-AES128-SHA:DHE-RSA-AES256-SHA:DES-CBC3-SHA:!aNULL:!eNULL" /\
    split_on ":" (cipher_rule ctx) =
      [ "AES128-SHA"; "AES256-SHA"; "DHE-RSA-AES128-SHA"; "DHE-RSA-AES256-SHA";
        "DES-CBC3-SHA"; "!aNULL"; "!eNULL" ] /\
    ciphers ctx = select_ciphers legacy_suites (cipher_rule ctx) /\
    forall c, In c (ciphers ctx) ->
      cs_aNULL c = false /\ cs_eNULL c = false /\
      In (cs_name c) weak_ciphers /\ In c legacy_suites.
Proof.
  eexists.
  eapply (C2_cipher_list full_platform
            [VInt 10; VInt 10] {[ "block" := VBool false ]}).
  - vm_compute. reflexivity.
  - vm_compute. reflexivity.
Defined.



(** The pool manager a successful [init_poolmanager] leaves on an
    adapter that was created without arguments. *)
Lemma new_adapter_configured (P : Platform) (ctx : SSLContext) :
  legacy_context P = Ok ctx ->
  new_adapter P PublicDataApiSSLAdapter =
  Ok (legacy_adapter ctx).
Proof.
  intros Hctx. unfold new_adapter, init_poolmanager, init_poolmanager_forward.
  rewrite Hctx. cbn [mbind Result_mbind Result_bind].
  unfold HTTPAdapter_init_poolmanager, bind_param. cbn [length Nat.ltb Nat.leb lookup list_lookup].
  rewrite lookup_insert_ne by done. rewrite lookup_singleton_ne by done.
  cbn [mbind Result_mbind Result_bind].
  rewrite lookup_insert_ne by done. rewrite lookup_singleton_ne by done.
  cbn [mbind Result_mbind Result_bind].
  rewrite lookup_insert_ne by done. rewrite lookup_singleton_eq.
  cbn [mbind Result_mbind Result_bind].
  rewrite lookup_delete_ne by done.
  rewrite lookup_insert_ne by done. rewrite lookup_singleton_ne by done.
  rewrite delete_insert_ne by done. rewrite delete_singleton_eq.
  reflexivity.
Qed.

Lemma new_adapter_raises (P : Platform) (e : PyError) :
  legacy_context P = Raise e ->
  new_adapter P PublicDataApiSSLAdapter = Raise e.
Proof.
  intros Hctx. unfold new_adapter, init_poolmanager, init_poolmanager_forward.
  by rewrite Hctx.
Qed.

(** The plain adapter of [requests] never fails to come up. *)
Lemma new_adapter_plain (P : Platform) :
  new_adapter P HTTPAdapter = Ok plain_adapter.
Proof. reflexivity. Qed.

(** C4, as the code has it.  Only [OP_DONT_INSERT_EMPTY_FRAGMENTS] is
    optional: when that constant is missing the option is skipped, the
    context is forwarded with the legacy-connect flag alone added to the
    library's options, and the adapter comes up.
    [OP_LEGACY_SERVER_CONNECT] is read without a guard: when it is
    missing, [init_poolmanager] raises [AttributeError] and no adapter
    is constructed. *)
Theorem C4_missing_constants (P : Platform) args kwargs :
  select_ciphers (implemented_ciphers (ssl P)) cipher_string <> [] ->
  (forall flag,
     OP_LEGACY_SERVER_CONNECT (ssl P) = Some flag ->
     OP_DONT_INSERT_EMPTY_FRAGMENTS (ssl P) = None ->
     exists ctx,
       init_poolmanager_forward P args kwargs =
         Ok (args, <["ssl_context" := VContext ctx]> kwargs) /\
       options ctx = Z.lor (options (create_urllib3_context P)) flag /\
       is_Ok (new_adapter P PublicDataApiSSLAdapter) = true) /\
  (OP_LEGACY_SERVER_CONNECT (ssl P) = None ->
     init_poolmanager_forward P args kwargs =
       Raise (AttributeError "ssl" "OP_LEGACY_SERVER_CONNECT") /\
     init_poolmanager P args kwargs =
       Raise (AttributeError "ssl" "OP_LEGACY_SERVER_CONNECT") /\
     new_adapter P PublicDataApiSSLAdapter =
       Raise (AttributeError "ssl" "OP_LEGACY_SERVER_CONNECT")).
Proof.
  intros Hsel. split.
  - intros flag Hlegacy Hfrag.
    assert (Hctx : legacy_context P =
              Ok (configured P (select_ciphers (implemented_ciphers (ssl P)) cipher_string) flag)).
    { rewrite legacy_context_unfold, Hlegacy.
      by destruct (select_ciphers _ _). }
    eexists. split_and!.
    + unfold init_poolmanager_forward. rewrite Hctx. reflexivity.
    + cbn [options configured]. by rewrite Hfrag.
    + by rewrite (new_adapter_configured _ _ Hctx).
  - intros Hlegacy.
    assert (Hctx : legacy_context P =
              Raise (AttributeError "ssl" "OP_LEGACY_SERVER_CONNECT")).
    { rewrite legacy_context_unfold, Hlegacy.
      by destruct (select_ciphers _ _). }
    split_and!.
    + unfold init_poolmanager_forward. by rewrite Hctx.
    + unfold init_poolmanager, init_poolmanager_forward. by rewrite Hctx.
    + by apply new_adapter_raises.
Qed.

Lemma C4_missing_constants_witness :
  exists ctx,
    init_poolmanager_forward no_fragments_platform
        [VInt 10; VInt 10] {[ "block" := VBool false ]} =
      Ok ([VInt 10; VInt 10],
          <["ssl_context" := VContext ctx]> {[ "block" := VBool false ]}) /\
    options ctx = Z.lor (options urllib3_default_context) 0x4 /\
    is_Ok (new_adapter no_fragments_platform PublicDataApiSSLAdapter) = true.
Proof.
  refine (proj1 (C4_missing_constants no_fragments_platform
                   [VInt 10; VInt 10] {[ "block" := VBool false ]} _) 0x4 _ _).
  - vm_compute. discriminate.
  - reflexivity.
  - reflexivity.
Defined.

(** C4 as it is worded fails: with [OP_LEGACY_SERVER_CONNECT] missing
    from an otherwise working platform, the option is not skipped;
    [init_poolmanager] raises and the adapter cannot be constructed. *)
Lemma C4_counterexample :
  is_Ok (new_adapter full_platform PublicDataApiSSLAdapter) = true /\
  OP_LEGACY_SERVER_CONNECT (ssl no_legacy_platform) = None /\
  init_poolmanager no_legacy_platform
      [VInt 10; VInt 10] {[ "block" := VBool false ]} =
    Raise (AttributeError "ssl" "OP_LEGACY_SERVER_CONNECT") /\
  is_Ok (new_adapter no_legacy_platform PublicDataApiSSLAdapter) = false.
Proof. split_and!; vm_compute; reflexivity. Qed.

(** C10. Whatever the caller passes, also an [ssl_context] of its own,
    the keyword arguments that reach the pool-manager initializer of the
    base class hold the adapter's own context under ["ssl_context"]
    (built from the platform alone), every other keyword is as the
    caller gave it, and the positional arguments are unchanged. *)
Theorem C10_ssl_context_overwritten (P : Platform) args kwargs args' kwargs' :
  init_poolmanager_forward P args kwargs = Ok (args', kwargs') ->
  args' = args /\
  (exists ctx, legacy_context P = Ok ctx /\
               kwargs' !! "ssl_context" = Some (VContext ctx)) /\
  (forall k, k <> "ssl_context" -> kwargs' !! k = kwargs !! k) /\
  init_poolmanager P args kwargs = HTTPAdapter_init_poolmanager args' kwargs'.
Proof.
  intros Hfw.
  destruct (init_poolmanager_forward_Ok _ _ _ _ _ Hfw) as (ctx & Hctx & -> & ->).
  split_and!.
  - reflexivity.
  - exists ctx. split; [done|]. apply lookup_insert_eq.
  - intros k Hk. by rewrite lookup_insert_ne.
  - unfold init_poolmanager. by rewrite Hfw.
Qed.

Lemma C10_ssl_context_overwritten_witness :
  let supplied : gmap string PyVal :=
    {[ "ssl_context" := VContext urllib3_default_context; "block" := VBool true ]} in
  legacy_context full_platform <> Ok urllib3_default_context /\
  exists args' kwargs',
    args' = [VInt 3; VInt 5] /\
    (exists ctx, legacy_context full_platform = Ok ctx /\
                 kwargs' !! "ssl_context" = Some (VContext ctx)) /\
    (forall k, k <> "ssl_context" -> kwargs' !! k = supplied !! k) /\
    init_poolmanager full_platform [VInt 3; VInt 5] supplied =
      HTTPAdapter_init_poolmanager args' kwargs'.
Proof.
  intros supplied. split; [vm_compute; discriminate|].
  eexists _, _.
  eapply (C10_ssl_context_overwritten full_platform [VInt 3; VInt 5] supplied).
  vm_compute. reflexivity.
Defined.

(** ** Sessions *)

(** Running the monad one primitive at a time. *)
Lemma bind_Ok {A B} (m : M A) (f : A -> M B) (w w' : World) (a : A) :
  m w = (Ok a, w') -> (m ≫= f) w = f a w'.
Proof. intros H. unfold mbind, M_mbind. by rewrite H. Qed.

Lemma bind_Raise {A B} (m : M A) (f : A -> M B) (w w' : World) (e : PyError) :
  m w = (Raise e, w') -> (m ≫= f) w = (Raise e, w').
Proof. intros H. unfold mbind, M_mbind. by rewrite H. Qed.

Lemma mount_table_first (a : Adapter) :
  mount_adapters "https://" a [] = Ok [("https://", a)].
Proof. reflexivity. Qed.

Lemma mount_table_second (a b : Adapter) :
  mount_adapters "http://" b [("https://", a)] = Ok [("https://", a); ("http://", b)].
Proof. reflexivity. Qed.

Lemma mount_table_replace (a b c : Adapter) :
  mount_adapters "https://" c [("https://", a); ("http://", b)] =
  Ok [("https://", c); ("http://", b)].
Proof. reflexivity. Qed.

Lemma mount_run (s : loc) (prefix : string) (a : Adapter) (o : Session)
    (table : list (string * Adapter)) (w : World) :
  sessions w !! s = Some o ->
  mount_adapters prefix a (adapters o) = Ok table ->
  mount s prefix a w =
  (Ok tt, {| next_loc := next_loc w; dicts := dicts w;
             sessions := <[s := {| headers := headers o; adapters := table |}]> (sessions w);
             trace := trace w |}).
Proof.
  intros Hs Ht. unfold mount.
  erewrite bind_Ok by (unfold read_session; by rewrite Hs).
  erewrite bind_Ok by (unfold lift; by rewrite Ht).
  reflexivity.
Qed.

(** In-place change of the header dictionary of a session. *)
Lemma headers_clear_run (s : loc) (o : Session) (d : CaseInsensitiveDict) (w : World) :
  sessions w !! s = Some o ->
  dicts w !! headers o = Some d ->
  headers_clear s w =
  (Ok tt, {| next_loc := next_loc w; dicts := <[headers o := ∅]> (dicts w);
             sessions := sessions w; trace := trace w |}).
Proof.
  intros Hs Hd. unfold headers_clear.
  erewrite bind_Ok by (unfold read_session; by rewrite Hs).
  erewrite bind_Ok by (unfold read_dict; by rewrite Hd).
  reflexivity.
Qed.

Lemma headers_update_run (s : loc) (items : list (string * string))
    (o : Session) (d : CaseInsensitiveDict) (w : World) :
  sessions w !! s = Some o ->
  dicts w !! headers o = Some d ->
  headers_update s items w =
  (Ok tt, {| next_loc := next_loc w; dicts := <[headers o := cid_update items d]> (dicts w);
             sessions := sessions w; trace := trace w |}).
Proof.
  intros Hs Hd. unfold headers_update.
  erewrite bind_Ok by (unfold read_session; by rewrite Hs).
  erewrite bind_Ok by (unfold read_dict; by rewrite Hd).
  reflexivity.
Qed.

Lemma headers_setitem_run (s : loc) (k v : string)
    (o : Session) (d : CaseInsensitiveDict) (w : World) :
  sessions w !! s = Some o ->
  dicts w !! headers o = Some d ->
  headers_setitem s k v w =
  (Ok tt, {| next_loc := next_loc w; dicts := <[headers o := cid_setitem k v d]> (dicts w);
             sessions := sessions w; trace := trace w |}).
Proof.
  intros Hs Hd. unfold headers_setitem.
  erewrite bind_Ok by (unfold read_session; by rewrite Hs).
  erewrite bind_Ok by (unfold read_dict; by rewrite Hd).
  reflexivity.
Qed.

(** [requests.Session()] always succeeds: it takes the next two
    locations, the first for the header dictionary and the second for
    the session, and leaves one [NewSession] event. *)
Lemma Session_new_run (P : Platform) (w : World) :
  Session_new P w =
  (Ok (S (next_loc w)),
   {| next_loc := S (S (next_loc w));
      dicts := <[next_loc w := cid_update (default_headers P) ∅]> (dicts w);
      sessions :=
        <[S (next_loc w) :=
            {| headers := next_loc w;
               adapters := [("https://", plain_adapter); ("http://", plain_adapter)] |}]>
          (sessions w);
      trace := (trace w ++ [NewSession (S (next_loc w))])%list |}).
Proof.
  unfold Session_new.
  erewrite bind_Ok by reflexivity.
  erewrite bind_Ok by reflexivity.
  erewrite bind_Ok by reflexivity.
  erewrite bind_Ok by reflexivity.
  erewrite bind_Ok.
  2:{ eapply mount_run; [cbn [sessions]; apply lookup_insert_eq | reflexivity]. }
  erewrite bind_Ok by reflexivity.
  erewrite bind_Ok.
  2:{ eapply mount_run; [cbn [sessions]; apply lookup_insert_eq | reflexivity]. }
  cbn [mret M_mret next_loc dicts sessions trace headers].
  by rewrite !insert_insert_eq.
Qed.

(** The factory method on a platform where the adapter comes up. *)
Lemma method_create_run (P : Platform) (self a : Adapter) (w : World) :
  new_adapter P PublicDataApiSSLAdapter = Ok a ->
  method_create_public_data_api_session P self w =
  (Ok (S (next_loc w)),
   {| next_loc := S (S (next_loc w));
      dicts := <[next_loc w := cid_update header_items ∅]> (dicts w);
      sessions :=
        <[S (next_loc w) :=
            {| headers := next_loc w;
               adapters := [("https://", a); ("http://", plain_adapter)] |}]>
          (sessions w);
      trace := (trace w ++ [NewSession (S (next_loc w))])%list |}).
Proof.
  intros Ha. unfold method_create_public_data_api_session.
  erewrite bind_Ok by apply Session_new_run.
  erewrite bind_Ok by (unfold lift; by rewrite Ha).
  erewrite bind_Ok.
  2:{ eapply mount_run; [cbn [sessions]; apply lookup_insert_eq | reflexivity]. }
  erewrite bind_Ok.
  2:{ eapply headers_clear_run; cbn [sessions dicts headers]; apply lookup_insert_eq. }
  erewrite bind_Ok.
  2:{ eapply headers_update_run; cbn [sessions dicts headers]; apply lookup_insert_eq. }
  cbn [mret M_mret next_loc dicts sessions trace headers].
  by rewrite !insert_insert_eq.
Qed.

Lemma create_run (P : Platform) (a : Adapter) (w : World) :
  new_adapter P PublicDataApiSSLAdapter = Ok a ->
  create_public_data_api_session P w =
  (Ok (S (next_loc w)),
   {| next_loc := S (S (next_loc w));
      dicts := <[next_loc w := cid_update header_items ∅]> (dicts w);
      sessions :=
        <[S (next_loc w) :=
            {| headers := next_loc w;
               adapters := [("https://", a); ("http://", plain_adapter)] |}]>
          (sessions w);
      trace := (trace w ++ [NewSession (S (next_loc w))])%list |}).
Proof.
  intros Ha. unfold create_public_data_api_session.
  erewrite bind_Ok by (unfold lift; by rewrite Ha).
  by apply method_create_run.
Qed.

(** When the adapter cannot be constructed the factory raises before it
    has touched anything. *)
Lemma create_raise (P : Platform) (e : PyError) (w : World) :
  new_adapter P PublicDataApiSSLAdapter = Raise e ->
  create_public_data_api_session P w = (Raise e, w).
Proof.
  intros Ha. unfold create_public_data_api_session.
  apply bind_Raise. unfold lift. by rewrite Ha.
Qed.

(** Everything there is to know about a session the factory returned. *)
Lemma create_Ok (P : Platform) (w w' : World) (s : loc) :
  create_public_data_api_session P w = (Ok s, w') ->
  exists ctx,
    legacy_context P = Ok ctx /\
    s = S (next_loc w) /\
    next_loc w' = S (S (next_loc w)) /\
    dicts w' = <[next_loc w := cid_update header_items ∅]> (dicts w) /\
    sessions w' =
      <[S (next_loc w) :=
          {| headers := next_loc w;
             adapters :=
               [("https://",
                 (legacy_adapter ctx));
                ("http://", plain_adapter)] |}]>
        (sessions w) /\
    trace w' = (trace w ++ [NewSession s])%list.
Proof.
  destruct (legacy_context P) as [ctx|e] eqn:Hctx.
  - rewrite (create_run P _ w (new_adapter_configured P ctx Hctx)).
    intros [= <- <-]. exists ctx. by split_and!.
  - rewrite (create_raise P e w (new_adapter_raises P e Hctx)). discriminate.
Qed.

(** The header dictionary of a new session. *)
Lemma create_headers (P : Platform) (w w' : World) (s : loc) :
  create_public_data_api_session P w = (Ok s, w') ->
  session_headers w' s = Some (cid_update header_items ∅).
Proof.
  intros H. destruct (create_Ok _ _ _ _ H) as (ctx & _ & -> & _ & Hd & Hs & _).
  unfold session_headers. rewrite Hs, lookup_insert_eq. cbn.
  by rewrite Hd, lookup_insert_eq.
Qed.

(** The seven items, insert by insert. *)
Lemma header_dict_unfold :
  cid_update header_items ∅ =
  <["referer" := ("Referer", "https://www.data.go.kr")]>
  (<["upgrade-insecure-requests" := ("Upgrade-Insecure-Requests", "1")]>
  (<["connection" := ("Connection", "keep-alive")]>
  (<["accept-encoding" := ("Accept-Encoding", "gzip, deflate, br")]>
  (<["accept-language" := ("Accept-Language", "ko-KR,ko;q=0.9,en;q=0.8")]>
  (<["accept" := ("Accept", "application/json, application/xml, text/plain, */*")]>
  (<["user-agent" := ("User-Agent", "User-Agent")]> ∅)))))).
Proof. reflexivity. Qed.

Lemma header_dict_contains (name : string) :
  cid_contains (cid_update header_items ∅) name = true <->
  lower name ∈ lower <$> expected_headers.
Proof.
  rewrite header_dict_unfold. unfold cid_contains.
  change (lower <$> expected_headers) with
    ["user-agent"; "accept"; "accept-language"; "accept-encoding";
     "connection"; "upgrade-insecure-requests"; "referer"].
  generalize (lower name). intros key.
  rewrite !lookup_insert, lookup_empty, !elem_of_cons, elem_of_nil.
  repeat case_decide; subst; try tauto.
  split; [discriminate|]. intros Hkey. exfalso.
  repeat (destruct Hkey as [->|Hkey]; [congruence|]). exact Hkey.
Qed.

Lemma header_dict_values (name value : string) :
  cid_getitem (cid_update header_items ∅) name = Some value ->
  value <> "" /\
  exists key, In (key, value) header_items /\ lower key = lower name.
Proof.
  rewrite header_dict_unfold. unfold cid_getitem.
  remember (lower name) as key eqn:Hkey. clear Hkey.
  rewrite !lookup_insert, lookup_empty.
  repeat case_decide; subst; cbn; intros [= <-]; (split; [discriminate|]);
    eexists; (split; [cbn; repeat (first [left; reflexivity | right])|reflexivity]).
Qed.

Lemma header_dict_keys :
  cid_keys (cid_update header_items ∅) =
  [ "Connection"; "User-Agent"; "Upgrade-Insecure-Requests";
    "Accept-Encoding"; "Accept-Language"; "Accept"; "Referer" ].
Proof. vm_compute. reflexivity. Qed.

(** C6. The header dictionary of every session the factory returns has
    exactly the seven expected names as its keys, each with a value that
    is not empty and comes from the fixed set; it is the fixed set laid
    over an empty dictionary, so nothing of the library's default headers
    is left, whatever they were. *)
Theorem C6_header_set (P : Platform) (w w' : World) (s : loc) :
  create_public_data_api_session P w = (Ok s, w') ->
  exists d,
    session_headers w' s = Some d /\
    d = cid_update header_items (cid_clear (cid_update (default_headers P) ∅)) /\
    length (cid_keys d) = 7%nat /\
    (forall name, name ∈ cid_keys d <-> name ∈ expected_headers) /\
    (forall name, cid_contains d name = true <-> lower name ∈ lower <$> expected_headers) /\
    (forall name, name ∈ expected_headers ->
       exists value, cid_getitem d name = Some value /\ value <> "") /\
    (forall name value, cid_getitem d name = Some value ->
       value <> "" /\ exists key, In (key, value) header_items /\ lower key = lower name).
Proof.
  intros H. exists (cid_update header_items ∅).
  split; [by eapply create_headers|]. split; [reflexivity|].
  split_and!.
  - by rewrite header_dict_keys.
  - intros name. rewrite header_dict_keys. unfold expected_headers.
    rewrite !elem_of_cons, !elem_of_nil. tauto.
  - apply header_dict_contains.
  - intros name Hin. unfold expected_headers in Hin.
    rewrite !elem_of_cons, elem_of_nil in Hin.
    repeat (destruct Hin as [->|Hin]; [eexists; split; [reflexivity|discriminate]|]).
    destruct Hin.
  - apply header_dict_values.
Qed.

Lemma C6_header_set_witness :
  exists d,
    d = cid_update header_items (cid_clear (cid_update requests_default_headers ∅)) /\
    length (cid_keys d) = 7%nat /\
    (forall name, name ∈ cid_keys d <-> name ∈ expected_headers) /\
    cid_getitem d "user-agent" = Some "User-Agent".
Proof.
  destruct (C6_header_set full_platform empty_world
              (snd (create_public_data_api_session full_platform empty_world)) 1%nat)
    as (d & _ & Hd & Hlen & Hkeys & _).
  - vm_compute. reflexivity.
  - exists d. split_and!; [exact Hd | exact Hlen | exact Hkeys |].
    rewrite Hd. reflexivity.
Defined.

(** C7. On a working platform the factory returns a session whose
    [User-Agent] header is the header's own name, [User-Agent]: it
    names no browser, and none of the three words
    [test_user_agent_format] looks for occurs in it.  The other headers
    carry the documented literals. *)
Theorem C7_user_agent_literal :
  exists s w d,
    create_public_data_api_session full_platform empty_world = (Ok s, w) /\
    session_headers w s = Some d /\
    cid_getitem d "User-Agent" = Some "User-Agent" /\
    contains "Mozilla" "User-Agent" = false /\
    contains "Chrome" "User-Agent" = false /\
    contains "Safari" "User-Agent" = false /\
    cid_getitem d "Accept-Language" = Some "ko-KR,ko;q=0.9,en;q=0.8" /\
    cid_getitem d "Accept-Encoding" = Some "gzip, deflate, br" /\
    cid_getitem d "Connection" = Some "keep-alive" /\
    cid_getitem d "Upgrade-Insecure-Requests" = Some "1" /\
    cid_getitem d "Referer" = Some "https://www.data.go.kr".
Proof.
  set (w := snd (create_public_data_api_session full_platform empty_world)).
  assert (H : create_public_data_api_session full_platform empty_world = (Ok 1%nat, w))
    by (vm_compute; reflexivity).
  exists 1%nat, w, (cid_update header_items ∅).
  split; [exact H|]. split; [exact (create_headers _ _ _ _ H)|].
  split_and!; vm_compute; reflexivity.
Qed.

(** The store after the factory, with the prefix table left abstract. *)
Lemma create_store (P : Platform) (w w' : World) (s : loc) :
  create_public_data_api_session P w = (Ok s, w') ->
  exists table,
    s = S (next_loc w) /\
    next_loc w' = S (S (next_loc w)) /\
    dicts w' = <[next_loc w := cid_update header_items ∅]> (dicts w) /\
    sessions w' =
      <[S (next_loc w) := {| headers := next_loc w; adapters := table |}]> (sessions w).
Proof.
  intros H. destruct (create_Ok _ _ _ _ H) as (ctx & _ & -> & Hn & Hd & Hs & _).
  eexists. split_and!; [reflexivity | exact Hn | exact Hd | exact Hs].
Qed.

Lemma session_headers_lookup (w : World) (s : loc) (o : Session) :
  sessions w !! s = Some o ->
  session_headers w s = dicts w !! headers o.
Proof. intros H. unfold session_headers. by rewrite H. Qed.

(** C8. Two sessions from two calls of the factory are different objects
    with different header dictionaries: building the second leaves the
    headers of the first as they were, and setting or clearing headers
    on either one afterwards leaves the headers of the other as they
    were. *)
Theorem C8_sessions_independent (P : Platform) (w w1 w2 : World) (s1 s2 : loc) :
  create_public_data_api_session P w = (Ok s1, w1) ->
  create_public_data_api_session P w1 = (Ok s2, w2) ->
  s1 <> s2 /\
  (exists o1 o2,
     sessions w2 !! s1 = Some o1 /\ sessions w2 !! s2 = Some o2 /\
     headers o1 <> headers o2) /\
  session_headers w2 s1 = session_headers w1 s1 /\
  (forall k v, exists w3,
     headers_setitem s1 k v w2 = (Ok tt, w3) /\
     session_headers w3 s1 = cid_setitem k v <$> session_headers w2 s1 /\
     session_headers w3 s2 = session_headers w2 s2) /\
  (forall k v, exists w3,
     headers_setitem s2 k v w2 = (Ok tt, w3) /\
     session_headers w3 s2 = cid_setitem k v <$> session_headers w2 s2 /\
     session_headers w3 s1 = session_headers w2 s1) /\
  (exists w3,
     headers_clear s1 w2 = (Ok tt, w3) /\
     session_headers w3 s1 = Some ∅ /\
     session_headers w3 s2 = session_headers w2 s2).
Proof.
  intros H1 H2.
  destruct (create_store _ _ _ _ H1) as (t1 & -> & Hn1 & Hd1 & Hs1).
  destruct (create_store _ _ _ _ H2) as (t2 & -> & Hn2 & Hd2 & Hs2).
  rewrite Hn1 in Hd2, Hs2 |- *. clear Hn1 Hn2 H1 H2.
  generalize dependent (next_loc w). intros n Hd1 Hs1 Hd2 Hs2.
  assert (Ho1 : sessions w2 !! S n = Some {| headers := n; adapters := t1 |}).
  { rewrite Hs2, lookup_insert_ne by lia. rewrite Hs1. apply lookup_insert_eq. }
  assert (Ho2 : sessions w2 !! S (S (S n)) =
                Some {| headers := S (S n); adapters := t2 |}).
  { rewrite Hs2. apply lookup_insert_eq. }
  assert (Hdict1 : dicts w2 !! n = Some (cid_update header_items ∅)).
  { rewrite Hd2, lookup_insert_ne by lia. rewrite Hd1. apply lookup_insert_eq. }
  assert (Hdict2 : dicts w2 !! S (S n) = Some (cid_update header_items ∅)).
  { rewrite Hd2. apply lookup_insert_eq. }
  assert (Hh1 : session_headers w2 (S n) = Some (cid_update header_items ∅)).
  { by rewrite (session_headers_lookup _ _ _ Ho1). }
  assert (Hh2 : session_headers w2 (S (S (S n))) = Some (cid_update header_items ∅)).
  { by rewrite (session_headers_lookup _ _ _ Ho2). }
  split_and!.
  - lia.
  - exists {| headers := n; adapters := t1 |}, {| headers := S (S n); adapters := t2 |}.
    split_and!; [exact Ho1 | exact Ho2 | cbn [headers]; lia].
  - rewrite Hh1. symmetry.
    erewrite session_headers_lookup by (rewrite Hs1; apply lookup_insert_eq).
    cbn [headers]. rewrite Hd1. apply lookup_insert_eq.
  - intros k v. eexists. split; [by eapply headers_setitem_run|].
    rewrite Hh1, Hh2. cbn [headers].
    erewrite !session_headers_lookup by (cbn [sessions]; eassumption).
    cbn [headers dicts]. rewrite lookup_insert_eq, lookup_insert_ne by lia.
    by rewrite Hdict2.
  - intros k v. eexists. split; [by eapply headers_setitem_run|].
    rewrite Hh1, Hh2. cbn [headers].
    erewrite !session_headers_lookup by (cbn [sessions]; eassumption).
    cbn [headers dicts]. rewrite lookup_insert_eq, lookup_insert_ne by lia.
    by rewrite Hdict1.
  - eexists. split; [by eapply headers_clear_run|].
    rewrite Hh2. cbn [headers].
    erewrite !session_headers_lookup by (cbn [sessions]; eassumption).
    cbn [headers dicts]. rewrite lookup_insert_eq, lookup_insert_ne by lia.
    by rewrite Hdict2.
Qed.

Lemma C8_sessions_independent_witness :
  exists w1 w2,
    create_public_data_api_session full_platform empty_world = (Ok 1%nat, w1) /\
    create_public_data_api_session full_platform w1 = (Ok 3%nat, w2) /\
    session_headers w2 1%nat = session_headers w1 1%nat /\
    exists w3,
      headers_setitem 1%nat "X-Trace" "on" w2 = (Ok tt, w3) /\
      session_headers w3 1%nat = cid_setitem "X-Trace" "on" <$> session_headers w2 1%nat /\
      session_headers w3 3%nat = session_headers w2 3%nat.
Proof.
  set (w1 := snd (create_public_data_api_session full_platform empty_world)).
  set (w2 := snd (create_public_data_api_session full_platform w1)).
  assert (H1 : create_public_data_api_session full_platform empty_world = (Ok 1%nat, w1))
    by (vm_compute; reflexivity).
  assert (H2 : create_public_data_api_session full_platform w1 = (Ok 3%nat, w2))
    by (vm_compute; reflexivity).
  exists w1, w2. split; [exact H1|]. split; [exact H2|].
  destruct (C8_sessions_independent _ _ _ _ _ _ H1 H2) as (_ & _ & Hkeep & Hset & _).
  split; [exact Hkeep | exact (Hset "X-Trace" "on")].
Defined.

(** ** Adapter lookup *)

Lemma startswith_append (p s : string) :
  startswith p s = true -> exists rest, s = String.append p rest.
Proof.
  revert s. induction p as [|a p IH]; intros s; cbn.
  - intros _. by exists s.
  - destruct s as [|b s]; [discriminate|].
    intros [Hab Hps]%andb_true_iff. apply Ascii.eqb_eq in Hab as <-.
    destruct (IH _ Hps) as [rest ->]. by exists rest.
Qed.

Lemma startswith_http_not_https (u : string) :
  startswith "http://" u = true -> startswith "https://" u = false.
Proof.
  intros H. apply startswith_append in H as [rest ->]. reflexivity.
Qed.

Lemma find_adapter_two (legacy plain : Adapter) (url : string) :
  find_adapter url [("https://", legacy); ("http://", plain)] =
  if startswith "https://" (lower url) then Some legacy
  else if startswith "http://" (lower url) then Some plain
  else None.
Proof. reflexivity. Qed.

(** C9. In every session the factory returns, the prefix table has two
    entries: the legacy-TLS adapter under ["https://"] and the plain
    adapter of the library, which has no TLS context of the adapter's
    making, under ["http://"].  A URL is handed to the legacy-TLS
    adapter exactly when it starts with [https://] (in any letter case);
    a URL that starts with [http://] is handed to the plain adapter. *)
Theorem C9_mounted_for_https_only (P : Platform) (w w' : World) (s : loc) :
  create_public_data_api_session P w = (Ok s, w') ->
  exists o legacy,
    sessions w' !! s = Some o /\
    adapters o = [("https://", legacy); ("http://", plain_adapter)] /\
    adapter_class legacy = PublicDataApiSSLAdapter /\
    adapter_ssl_context legacy = VContext <$> Some (configured P
        (select_ciphers (implemented_ciphers (ssl P)) cipher_string)
        (default 0 (OP_LEGACY_SERVER_CONNECT (ssl P)))) /\
    adapter_class plain_adapter = HTTPAdapter /\
    adapter_ssl_context plain_adapter = None /\
    (forall url, startswith "https://" (lower url) = true ->
                 get_adapter o url = Ok legacy) /\
    (forall url, startswith "http://" (lower url) = true ->
                 get_adapter o url = Ok plain_adapter) /\
    (forall url a, get_adapter o url = Ok a ->
                   adapter_class a = PublicDataApiSSLAdapter ->
                   startswith "https://" (lower url) = true).
Proof.
  intros H. destruct (create_Ok _ _ _ _ H) as (ctx & Hctx & -> & _ & _ & Hs & _).
  destruct (legacy_context_Ok _ _ Hctx) as (sel & flag & Hsel & _ & Hflag & ->).
  eexists _, _. split; [rewrite Hs; apply lookup_insert_eq|].
  cbn [adapters]. split; [reflexivity|].
  split; [reflexivity|].
  split. { unfold adapter_ssl_context, legacy_adapter.
           cbn [poolmanager connection_pool_kw].
           rewrite lookup_insert_eq, Hsel, Hflag. reflexivity. }
  split; [reflexivity|]. split; [reflexivity|].
  unfold get_adapter. cbn [adapters]. split_and!.
  - intros url Hurl. by rewrite find_adapter_two, Hurl.
  - intros url Hurl.
    by rewrite find_adapter_two, (startswith_http_not_https _ Hurl), Hurl.
  - intros url a. rewrite find_adapter_two.
    destruct (startswith "https://" (lower url)); [done|].
    destruct (startswith "http://" (lower url)); [|discriminate].
    intros [= <-]. discriminate.
Qed.

Lemma C9_mounted_for_https_only_witness :
  exists o legacy,
    sessions (snd (create_public_data_api_session full_platform empty_world)) !! 1%nat
      = Some o /\
    adapters o = [("https://", legacy); ("http://", plain_adapter)] /\
    adapter_class legacy = PublicDataApiSSLAdapter /\
    get_adapter o "HTTPS://apis.data.go.kr/endpoint" = Ok legacy /\
    get_adapter o "http://apis.data.go.kr/endpoint" = Ok plain_adapter /\
    get_adapter o "ftp://apis.data.go.kr/endpoint" =
      Raise (InvalidSchema "ftp://apis.data.go.kr/endpoint").
Proof.
  destruct (C9_mounted_for_https_only full_platform empty_world
              (snd (create_public_data_api_session full_platform empty_world)) 1%nat)
    as (o & legacy & Ho & Htable & Hclass & _ & _ & _ & Hhttps & Hhttp & _).
  - vm_compute. reflexivity.
  - exists o, legacy. split_and!; try assumption.
    + apply Hhttps. reflexivity.
    + apply Hhttp. reflexivity.
    + unfold get_adapter. rewrite Htable. reflexivity.
Defined.

(** ** The request functions *)

Lemma Session_get_run (net : Network) (s : loc) (url : string)
    (kwargs : gmap string PyVal) (o : Session) (d : CaseInsensitiveDict) (w : World) :
  sessions w !! s = Some o ->
  dicts w !! headers o = Some d ->
  Session_get net s url kwargs w =
  (net (trace w ++ [Call "GET" s url kwargs])%list o d "GET" url
       (match kwargs !! "allow_redirects" with
        | Some _ => kwargs
        | None => <["allow_redirects" := VBool true]> kwargs
        end),
   {| next_loc := next_loc w; dicts := dicts w; sessions := sessions w;
      trace := (trace w ++ [Call "GET" s url kwargs])%list |}).
Proof.
  intros Hs Hd. unfold Session_get, Session_request.
  erewrite bind_Ok by reflexivity.
  erewrite bind_Ok by (unfold read_session; cbn [sessions]; by rewrite Hs).
  erewrite bind_Ok by (unfold read_dict; cbn [dicts]; by rewrite Hd).
  reflexivity.
Qed.

Lemma Session_post_run (net : Network) (s : loc) (url : string)
    (kwargs : gmap string PyVal) (o : Session) (d : CaseInsensitiveDict) (w : World) :
  sessions w !! s = Some o ->
  dicts w !! headers o = Some d ->
  Session_post net s url kwargs w =
  (net (trace w ++ [Call "POST" s url kwargs])%list o d "POST" url
       (<["data" := default VNone (kwargs !! "data")]>
          (<["json" := default VNone (kwargs !! "json")]> kwargs)),
   {| next_loc := next_loc w; dicts := dicts w; sessions := sessions w;
      trace := (trace w ++ [Call "POST" s url kwargs])%list |}).
Proof.
  intros Hs Hd. unfold Session_post, Session_request.
  erewrite bind_Ok by reflexivity.
  erewrite bind_Ok by (unfold read_session; cbn [sessions]; by rewrite Hs).
  erewrite bind_Ok by (unfold read_dict; cbn [dicts]; by rewrite Hd).
  reflexivity.
Qed.

Lemma public_data_api_get_refines (P : Platform) (net : Network) url opts w :
  public_data_api_get P net url opts w =
  one_request_on_new_session P (Session_get net) url opts w.
Proof.
  unfold public_data_api_get, one_request_on_new_session, mbind, M_mbind.
  by destruct (create_public_data_api_session P w) as [[s|e] w1].
Qed.

Lemma public_data_api_post_refines (P : Platform) (net : Network) url opts w :
  public_data_api_post P net url opts w =
  one_request_on_new_session P (Session_post net) url opts w.
Proof.
  unfold public_data_api_post, one_request_on_new_session, mbind, M_mbind.
  by destruct (create_public_data_api_session P w) as [[s|e] w1].
Qed.

(** C5. [public_data_api_get] and [public_data_api_post] are the prose
    reading, on every input.  When the factory returns a session, each
    of them is the session's [get] (resp. [post]) called on exactly that
    session with the URL and the options as given: the result is that
    call's result, and what they add to the trace is one [NewSession]
    followed by one [Call] that carries the URL and the options
    unchanged. *)
Theorem C5_request_passthrough (P : Platform) (net : Network)
    (url : string) (opts : gmap string PyVal) (w w1 : World) (s : loc) :
  create_public_data_api_session P w = (Ok s, w1) ->
  public_data_api_get P net url opts w =
    one_request_on_new_session P (Session_get net) url opts w /\
  public_data_api_post P net url opts w =
    one_request_on_new_session P (Session_post net) url opts w /\
  public_data_api_get P net url opts w = Session_get net s url opts w1 /\
  public_data_api_post P net url opts w = Session_post net s url opts w1 /\
  trace (snd (public_data_api_get P net url opts w)) =
    (trace w ++ [NewSession s; Call "GET" s url opts])%list /\
  trace (snd (public_data_api_post P net url opts w)) =
    (trace w ++ [NewSession s; Call "POST" s url opts])%list /\
  sessions (snd (public_data_api_get P net url opts w)) = sessions w1 /\
  sessions (snd (public_data_api_post P net url opts w)) = sessions w1.
Proof.
  intros H.
  assert (Hget : public_data_api_get P net url opts w = Session_get net s url opts w1).
  { unfold public_data_api_get.
    exact (bind_Ok _ (fun session => Session_get net session url opts) _ _ _ H). }
  assert (Hpost : public_data_api_post P net url opts w = Session_post net s url opts w1).
  { unfold public_data_api_post.
    exact (bind_Ok _ (fun session => Session_post net session url opts) _ _ _ H). }
  destruct (create_store _ _ _ _ H) as (table & Hs & _ & Hd & Hsess).
  destruct (create_Ok _ _ _ _ H) as (_ & _ & _ & _ & _ & _ & Htrace).
  assert (Ho : sessions w1 !! s = Some {| headers := next_loc w; adapters := table |}).
  { rewrite Hsess, Hs. apply lookup_insert_eq. }
  assert (Hdict : dicts w1 !! next_loc w = Some (cid_update header_items ∅)).
  { rewrite Hd. apply lookup_insert_eq. }
  split; [apply public_data_api_get_refines|].
  split; [apply public_data_api_post_refines|].
  split; [exact Hget|]. split; [exact Hpost|].
  rewrite Hget, Hpost.
  rewrite (Session_get_run net s url opts _ _ w1 Ho Hdict).
  rewrite (Session_post_run net s url opts _ _ w1 Ho Hdict).
  cbn [snd trace sessions]. rewrite Htrace, <- !app_assoc.
  by split_and!.
Qed.

Lemma C5_request_passthrough_witness :
  let url := "https://example.com" in
  let opts : gmap string PyVal := {[ "json" := VDict [("key", VStr "value")] ]} in
  exists w1,
    create_public_data_api_session full_platform empty_world = (Ok 1%nat, w1) /\
    public_data_api_get full_platform echo_network url opts empty_world =
      Session_get echo_network 1%nat url opts w1 /\
    public_data_api_post full_platform echo_network url opts empty_world =
      Session_post echo_network 1%nat url opts w1 /\
    trace (snd (public_data_api_get full_platform echo_network url opts empty_world)) =
      [NewSession 1%nat; Call "GET" 1%nat url opts] /\
    trace (snd (public_data_api_post full_platform echo_network url opts empty_world)) =
      [NewSession 1%nat; Call "POST" 1%nat url opts].
Proof.
  intros url opts.
  set (w1 := snd (create_public_data_api_session full_platform empty_world)).
  assert (H : create_public_data_api_session full_platform empty_world = (Ok 1%nat, w1))
    by (vm_compute; reflexivity).
  exists w1. split; [exact H|].
  destruct (C5_request_passthrough full_platform echo_network url opts _ _ _ H)
    as (_ & _ & Hget & Hpost & Htg & Htp & _).
  split_and!; [exact Hget | exact Hpost | exact Htg | exact Htp].
Defined.

(* ===================================================================== *)
(** * Further properties of the module *)
(* ===================================================================== *)

(** ** The option flags of the context *)

(** X1. [ctx.options |= ...] only ever adds: in every context that
    [init_poolmanager] forwards, an option bit is set exactly when the
    library's default context had it, or it belongs to
    [OP_LEGACY_SERVER_CONNECT], or it belongs to
    [OP_DONT_INSERT_EMPTY_FRAGMENTS] and the [ssl] module has that
    constant.  No option of the default context is ever cleared. *)
Theorem X1_option_bits (P : Platform) args kwargs args' kwargs' ctx :
  init_poolmanager_forward P args kwargs = Ok (args', kwargs') ->
  kwargs' !! "ssl_context" = Some (VContext ctx) ->
  exists flag,
    OP_LEGACY_SERVER_CONNECT (ssl P) = Some flag /\
    (forall n,
       Z.testbit (options ctx) n =
         Z.testbit (options (create_urllib3_context P)) n
         || Z.testbit flag n
         || match OP_DONT_INSERT_EMPTY_FRAGMENTS (ssl P) with
            | Some extra => Z.testbit extra n
            | None => false
            end) /\
    (forall n, Z.testbit (options (create_urllib3_context P)) n = true ->
               Z.testbit (options ctx) n = true) /\
    Z.land (options ctx) flag = flag.
Proof.
  intros Hfw Hlook.
  destruct (forwarded_context _ _ _ _ _ _ Hfw Hlook) as (sel & flag & _ & _ & Hflag & ->).
  exists flag. split; [exact Hflag|].
  assert (Hbits : forall n,
    Z.testbit (options (configured P sel flag)) n =
      Z.testbit (options (create_urllib3_context P)) n
      || Z.testbit flag n
      || match OP_DONT_INSERT_EMPTY_FRAGMENTS (ssl P) with
         | Some extra => Z.testbit extra n
         | None => false
         end).
  { intros n. cbn [options configured].
    destruct (OP_DONT_INSERT_EMPTY_FRAGMENTS (ssl P)) as [extra|].
    - by rewrite !Z.lor_spec.
    - by rewrite Z.lor_spec, orb_false_r. }
  split_and!.
  - exact Hbits.
  - intros n Hn. rewrite Hbits, Hn. reflexivity.
  - apply Z.bits_inj'. intros n _. rewrite Z.land_spec, Hbits.
    destruct (Z.testbit flag n); [|by rewrite andb_false_r].
    by rewrite orb_true_r.
Qed.

Lemma X1_option_bits_witness :
  exists ctx flag,
    legacy_context full_platform = Ok ctx /\
    OP_LEGACY_SERVER_CONNECT (ssl full_platform) = Some flag /\
    (forall n, Z.testbit (options urllib3_default_context) n = true ->
               Z.testbit (options ctx) n = true) /\
    Z.land (options ctx) flag = flag.
Proof.
  set (ctx := configured full_platform
                (select_ciphers legacy_suites cipher_string) 0x4).
  assert (Hfw : init_poolmanager_forward full_platform
                  [VInt 10; VInt 10] {[ "block" := VBool false ]} =
                Ok ([VInt 10; VInt 10],
                    <["ssl_context" := VContext ctx]> {[ "block" := VBool false ]}))
    by reflexivity.
  destruct (X1_option_bits _ _ _ _ _ ctx Hfw (lookup_insert_eq _ _ _))
    as (flag & Hflag & _ & Hkeep & Hland).
  exists ctx, flag. split_and!; [reflexivity | exact Hflag | exact Hkeep | exact Hland].
Defined.

(** ** What the rule string selects *)

Lemma weak_ciphers_NoDup : List.NoDup weak_ciphers.
Proof.
  unfold weak_ciphers.
  repeat (apply List.NoDup_cons; [cbn; intuition discriminate|]).
  apply List.NoDup_nil.
Qed.

(** Bare names that are not enabled yet each append the implemented
    suites of that name, in the order of the names. *)
Lemma fold_names_formula (toks : list string) (pool active : list CipherSuite) :
  (forall t, In t toks -> In t weak_ciphers) ->
  List.NoDup toks ->
  (forall c, In c active -> ~ In (cs_name c) toks) ->
  fold_left apply_rule toks (pool, active) =
  (pool,
   (active ++ flat_map (fun n => List.filter (fun c => String.eqb n (cs_name c)) pool) toks)%list).
Proof.
  revert active. induction toks as [|tok toks IH]; intros active Hweak Hnd Hact.
  - cbn. by rewrite app_nil_r.
  - cbn [fold_left flat_map].
    rewrite apply_rule_name by (apply Hweak; by left).
    assert (Hfilter :
      List.filter (fun c => String.eqb tok (cs_name c) && negb (enabled_name active c)) pool =
      List.filter (fun c => String.eqb tok (cs_name c)) pool).
    { apply filter_ext_in. intros c _.
      destruct (String.eqb tok (cs_name c)) eqn:Hname; [|reflexivity].
      apply String.eqb_eq in Hname.
      destruct (enabled_name active c) eqn:Hen; [|reflexivity].
      exfalso. unfold enabled_name in Hen.
      apply existsb_exists in Hen as (a & Ha & Heq).
      apply String.eqb_eq in Heq.
      apply (Hact a Ha). left. congruence. }
    rewrite Hfilter.
    inversion Hnd as [|? ? Hnotin Hnd']; subst.
    rewrite IH.
    + by rewrite <- app_assoc.
    + intros t Ht. apply Hweak. by right.
    + exact Hnd'.
    + intros c. rewrite in_app_iff, filter_In.
      intros [Hc|[_ Hc]] Hin.
      * apply (Hact c Hc). by right.
      * apply String.eqb_eq in Hc. subst tok. by apply Hnotin.
Qed.

(** The selection in closed form. *)
Lemma select_cipher_string_formula (impl : list CipherSuite) :
  select_ciphers impl cipher_string =
  List.filter (fun c => negb (cs_eNULL c))
    (List.filter (fun c => negb (cs_aNULL c))
       (flat_map (fun n => List.filter (fun c => String.eqb n (cs_name c)) impl)
                 weak_ciphers)).
Proof.
  unfold select_ciphers. rewrite cipher_string_tokens, fold_left_app.
  rewrite fold_names_formula; [|done|apply weak_ciphers_NoDup|by intros c []].
  cbn [fold_left]. rewrite apply_rule_kill_aNULL, apply_rule_kill_eNULL.
  reflexivity.
Qed.

Lemma select_cipher_string_iff (impl : list CipherSuite) (c : CipherSuite) :
  In c (select_ciphers impl cipher_string) <->
  In c impl /\ In (cs_name c) weak_ciphers /\ cs_aNULL c = false /\ cs_eNULL c = false.
Proof.
  split.
  - intros H. apply select_cipher_string in H. tauto.
  - intros (Himpl & Hname & Ha & He).
    rewrite select_cipher_string_formula, !filter_In, in_flat_map.
    rewrite Ha, He. split_and!; try reflexivity.
    exists (cs_name c). split; [exact Hname|].
    rewrite filter_In. split; [exact Himpl|]. apply String.eqb_refl.
Qed.

(** X3. The suites for TLS 1.2 and below that
    [set_ciphers(cipher_string)] enables, for any list of such suites
    the TLS library implements: the implemented ones that go by one of
    the five names and are neither anonymous nor unencrypted, no others,
    and in the order of preference the list [weak_ciphers] gives (all of
    AES128-SHA first, DES-CBC3-SHA last). *)
Theorem X3_cipher_selection (impl : list CipherSuite) :
  select_ciphers impl cipher_string =
    List.filter (fun c => negb (cs_eNULL c))
      (List.filter (fun c => negb (cs_aNULL c))
         (flat_map (fun n => List.filter (fun c => String.eqb n (cs_name c)) impl)
                   weak_ciphers)) /\
  (forall c, In c (select_ciphers impl cipher_string) <->
     In c impl /\ In (cs_name c) weak_ciphers /\
     cs_aNULL c = false /\ cs_eNULL c = false).
Proof.
  split; [apply select_cipher_string_formula|apply select_cipher_string_iff].
Qed.

(** ** When the factory works *)

(** X4. The factory returns a session only on a platform where the
    [ssl] module has [OP_LEGACY_SERVER_CONNECT] and the TLS library
    implements at least one of the five suites in a form that is
    neither anonymous nor unencrypted. *)
Theorem X4_factory_needs (P : Platform) (w w' : World) (s : loc) :
  create_public_data_api_session P w = (Ok s, w') ->
  is_Some (OP_LEGACY_SERVER_CONNECT (ssl P)) /\
  exists c, In c (implemented_ciphers (ssl P)) /\ In (cs_name c) weak_ciphers /\
            cs_aNULL c = false /\ cs_eNULL c = false.
Proof.
  intros H.
  destruct (create_Ok _ _ _ _ H) as (ctx & Hctx & _).
  destruct (legacy_context_Ok _ _ Hctx) as (sel & flag & Hsel & Hne & Hflag & _).
  split; [by exists flag|].
  destruct sel as [|c sel]; [done|]. exists c.
  apply (proj1 (select_cipher_string_iff _ c)). rewrite Hsel. by left.
Qed.

Lemma X4_factory_needs_witness :
  is_Some (OP_LEGACY_SERVER_CONNECT (ssl full_platform)) /\
  exists c, In c legacy_suites /\ In (cs_name c) weak_ciphers /\
            cs_aNULL c = false /\ cs_eNULL c = false.
Proof.
  apply (X4_factory_needs full_platform empty_world
           (snd (create_public_data_api_session full_platform empty_world)) 1%nat).
  vm_compute. reflexivity.
Defined.

(** ** The context on its way into the pool manager *)

Lemma bind_param_other (name : string) positional kw default v kw' (k : string) :
  bind_param name positional kw default = Ok (v, kw') ->
  k <> name -> kw' !! k = kw !! k.
Proof.
  unfold bind_param. intros H Hk.
  destruct positional as [p|], (kw !! name) as [x|] eqn:Hx; try discriminate.
  - by injection H as <- <-.
  - injection H as <- <-. by rewrite lookup_delete_ne.
  - destruct default; [|discriminate]. by injection H as <- <-.
Qed.

Lemma HTTPAdapter_init_poolmanager_other args kwargs pm (k : string) :
  HTTPAdapter_init_poolmanager args kwargs = Ok pm ->
  k <> "connections" -> k <> "maxsize" -> k <> "block" -> k <> "headers" ->
  connection_pool_kw pm !! k = kwargs !! k.
Proof.
  unfold HTTPAdapter_init_poolmanager. intros H Hc Hm Hb Hh.
  destruct (3 <? length args)%nat; [discriminate|].
  destruct (bind_param "connections" _ kwargs None) as [[v1 kw1]|] eqn:H1; [|discriminate].
  cbn [mbind Result_mbind Result_bind] in H.
  destruct (bind_param "maxsize" _ kw1 None) as [[v2 kw2]|] eqn:H2; [|discriminate].
  cbn [mbind Result_mbind Result_bind] in H.
  destruct (bind_param "block" _ kw2 _) as [[v3 kw3]|] eqn:H3; [|discriminate].
  cbn [mbind Result_mbind Result_bind] in H.
  destruct (kw3 !! "num_pools") eqn:Hn; [discriminate|].
  injection H as <-. unfold PoolManager_new. cbn [connection_pool_kw].
  destruct (decide (k = "num_pools")) as [->|Hk].
  - rewrite lookup_delete_ne by done. rewrite lookup_delete_eq.
    rewrite <- Hn.
    rewrite (bind_param_other _ _ _ _ _ _ "num_pools" H3) by done.
    rewrite (bind_param_other _ _ _ _ _ _ "num_pools" H2) by done.
    by rewrite (bind_param_other _ _ _ _ _ _ "num_pools" H1).
  - rewrite !lookup_delete_ne by done. rewrite !lookup_insert_ne by done.
    rewrite (bind_param_other _ _ _ _ _ _ k H3) by done.
    rewrite (bind_param_other _ _ _ _ _ _ k H2) by done.
    by rewrite (bind_param_other _ _ _ _ _ _ k H1).
Qed.

(** The named parameters of the base class end up where the pool
    manager keeps them. *)
Lemma HTTPAdapter_init_poolmanager_named args kwargs pm :
  HTTPAdapter_init_poolmanager args kwargs = Ok pm ->
  is_Some (connection_pool_kw pm !! "maxsize") /\
  is_Some (connection_pool_kw pm !! "block") /\
  connection_pool_kw pm !! "headers" = None /\
  connection_pool_kw pm !! "num_pools" = None.
Proof.
  unfold HTTPAdapter_init_poolmanager. intros H.
  destruct (3 <? length args)%nat; [discriminate|].
  destruct (bind_param "connections" _ kwargs None) as [[v1 kw1]|]; [|discriminate].
  cbn [mbind Result_mbind Result_bind] in H.
  destruct (bind_param "maxsize" _ kw1 None) as [[v2 kw2]|]; [|discriminate].
  cbn [mbind Result_mbind Result_bind] in H.
  destruct (bind_param "block" _ kw2 _) as [[v3 kw3]|]; [|discriminate].
  cbn [mbind Result_mbind Result_bind] in H.
  destruct (kw3 !! "num_pools"); [discriminate|].
  injection H as <-. unfold PoolManager_new. cbn [connection_pool_kw].
  split_and!.
  - rewrite !lookup_delete_ne by done. rewrite lookup_insert_ne by done.
    rewrite lookup_insert_eq. by eexists.
  - rewrite !lookup_delete_ne by done. rewrite !lookup_insert_ne by done.
    rewrite lookup_insert_eq. by eexists.
  - apply lookup_delete_eq.
  - rewrite lookup_delete_ne by done. apply lookup_delete_eq.
Qed.

(** X5. Whenever [init_poolmanager] returns, however the caller split
    its arguments between positions and keywords, the pool manager that
    the base class built keeps the adapter's own context under
    ["ssl_context"] among the keywords for its connection pools, next to
    [maxsize] and [block].  Every keyword of the caller other than
    [ssl_context], the three named parameters of the base class and
    [headers] (which the pool manager takes for itself) arrives there
    unchanged. *)
Theorem X5_context_reaches_pool (P : Platform) args kwargs pm :
  init_poolmanager P args kwargs = Ok pm ->
  exists ctx,
    legacy_context P = Ok ctx /\
    connection_pool_kw pm !! "ssl_context" = Some (VContext ctx) /\
    is_Some (connection_pool_kw pm !! "maxsize") /\
    is_Some (connection_pool_kw pm !! "block") /\
    connection_pool_kw pm !! "headers" = None /\
    (forall k, k <> "ssl_context" ->
               k <> "connections" -> k <> "maxsize" -> k <> "block" ->
               k <> "headers" ->
               connection_pool_kw pm !! k = kwargs !! k).
Proof.
  unfold init_poolmanager, init_poolmanager_forward.
  destruct (legacy_context P) as [ctx|e] eqn:Hctx; [|discriminate].
  cbn [mbind Result_mbind Result_bind]. intros H.
  destruct (HTTPAdapter_init_poolmanager_named _ _ _ H) as (Hm & Hb & Hh & _).
  exists ctx. split_and!; try done.
  - rewrite (HTTPAdapter_init_poolmanager_other _ _ _ "ssl_context" H) by done.
    apply lookup_insert_eq.
  - intros k Hk Hc Hmx Hbl Hhd.
    rewrite (HTTPAdapter_init_poolmanager_other _ _ _ k H) by done.
    by rewrite lookup_insert_ne.
Qed.

Lemma X5_context_reaches_pool_witness :
  let kwargs : gmap string PyVal :=
    {[ "maxsize" := VInt 20;
       "ssl_context" := VContext urllib3_default_context;
       "headers" := VDict [("X-Trace", VStr "on")];
       "timeout" := VInt 5 ]} in
  exists pm ctx,
    init_poolmanager full_platform [VInt 4] kwargs = Ok pm /\
    legacy_context full_platform = Ok ctx /\
    connection_pool_kw pm !! "ssl_context" = Some (VContext ctx) /\
    connection_pool_kw pm !! "maxsize" = Some (VInt 20) /\
    connection_pool_kw pm !! "headers" = None /\
    pool_headers pm = VDict [("X-Trace", VStr "on")] /\
    connection_pool_kw pm !! "timeout" = Some (VInt 5).
Proof.
  intros kwargs.
  destruct (init_poolmanager full_platform [VInt 4] kwargs) as [pm|e] eqn:H;
    [|vm_compute in H; discriminate H].
  destruct (X5_context_reaches_pool _ _ _ _ H)
    as (ctx & Hctx & Hlook & _ & _ & Hh & Hother).
  pose proof H as Hpm. vm_compute in Hpm. injection Hpm as Hpm.
  exists pm, ctx.
  split; [reflexivity|]. split; [exact Hctx|]. split; [exact Hlook|].
  split; [rewrite <- Hpm; vm_compute; reflexivity|].
  split; [exact Hh|].
  split; [rewrite <- Hpm; vm_compute; reflexivity|].
  rewrite Hother by discriminate. reflexivity.
Defined.

(** ** Failing closed *)

(** X6. When the factory raises, it raises what building the TLS
    context raised, and it has changed nothing: no session exists and
    nothing is on the trace.  [public_data_api_get] and
    [public_data_api_post] then raise the same exception without
    calling any request method. *)
Theorem X6_fail_closed (P : Platform) (net : Network)
    (url : string) (opts : gmap string PyVal) (w w' : World) (e : PyError) :
  create_public_data_api_session P w = (Raise e, w') ->
  w' = w /\
  legacy_context P = Raise e /\
  public_data_api_get P net url opts w = (Raise e, w) /\
  public_data_api_post P net url opts w = (Raise e, w).
Proof.
  intros H.
  destruct (legacy_context P) as [ctx|e0] eqn:Hctx.
  - rewrite (create_run P _ w (new_adapter_configured P ctx Hctx)) in H. discriminate.
  - pose proof (create_raise P e0 w (new_adapter_raises P e0 Hctx)) as Hr.
    rewrite Hr in H. injection H as <- <-.
    split; [reflexivity|]. split; [reflexivity|]. split.
    + unfold public_data_api_get. exact (bind_Raise _ _ _ _ _ Hr).
    + unfold public_data_api_post. exact (bind_Raise _ _ _ _ _ Hr).
Qed.

Lemma X6_fail_closed_witness :
  create_public_data_api_session modern_platform empty_world =
    (Raise (SSLError "No cipher can be selected."), empty_world) /\
  public_data_api_get modern_platform echo_network "https://example.com" ∅ empty_world =
    (Raise (SSLError "No cipher can be selected."), empty_world) /\
  public_data_api_post modern_platform echo_network "https://example.com" ∅ empty_world =
    (Raise (SSLError "No cipher can be selected."), empty_world).
Proof.
  assert (H : create_public_data_api_session modern_platform empty_world =
              (Raise (SSLError "No cipher can be selected."), empty_world))
    by (vm_compute; reflexivity).
  destruct (X6_fail_closed modern_platform echo_network "https://example.com" ∅ _ _ _ H)
    as (_ & _ & Hget & Hpost).
  split_and!; [exact H | exact Hget | exact Hpost].
Defined.

(** ** What a request function does to the store *)

(** The two request functions run to the end on a platform where the
    context can be built. *)
Lemma get_run (P : Platform) (net : Network) url opts (w : World) (ctx : SSLContext) :
  legacy_context P = Ok ctx ->
  let s := S (next_loc w) in
  let o := {| headers := next_loc w;
              adapters :=
                [("https://",
                  (legacy_adapter ctx));
                 ("http://", plain_adapter)] |} in
  let t := (trace w ++ [NewSession s; Call "GET" s url opts])%list in
  public_data_api_get P net url opts w =
  (net t o (cid_update header_items ∅) "GET" url
       (match opts !! "allow_redirects" with
        | Some _ => opts
        | None => <["allow_redirects" := VBool true]> opts
        end),
   {| next_loc := S (S (next_loc w));
      dicts := <[next_loc w := cid_update header_items ∅]> (dicts w);
      sessions := <[s := o]> (sessions w);
      trace := t |}).
Proof.
  intros Hctx s o t. unfold public_data_api_get.
  erewrite bind_Ok by apply (create_run P _ w (new_adapter_configured P ctx Hctx)).
  erewrite Session_get_run;
    [|cbn [sessions]; apply lookup_insert_eq|cbn [dicts headers]; apply lookup_insert_eq].
  cbn [next_loc dicts sessions trace]. subst t. by rewrite <- !app_assoc.
Qed.

Lemma post_run (P : Platform) (net : Network) url opts (w : World) (ctx : SSLContext) :
  legacy_context P = Ok ctx ->
  let s := S (next_loc w) in
  let o := {| headers := next_loc w;
              adapters :=
                [("https://",
                  (legacy_adapter ctx));
                 ("http://", plain_adapter)] |} in
  let t := (trace w ++ [NewSession s; Call "POST" s url opts])%list in
  public_data_api_post P net url opts w =
  (net t o (cid_update header_items ∅) "POST" url
       (<["data" := default VNone (opts !! "data")]>
          (<["json" := default VNone (opts !! "json")]> opts)),
   {| next_loc := S (S (next_loc w));
      dicts := <[next_loc w := cid_update header_items ∅]> (dicts w);
      sessions := <[s := o]> (sessions w);
      trace := t |}).
Proof.
  intros Hctx s o t. unfold public_data_api_post.
  erewrite bind_Ok by apply (create_run P _ w (new_adapter_configured P ctx Hctx)).
  erewrite Session_post_run;
    [|cbn [sessions]; apply lookup_insert_eq|cbn [dicts headers]; apply lookup_insert_eq].
  cbn [next_loc dicts sessions trace]. subst t. by rewrite <- !app_assoc.
Qed.

(** X8. Two calls of the request functions never share a session: each
    call makes its own, also when the first request failed at the far
    end.  After [public_data_api_get] followed by
    [public_data_api_post] the trace has grown by a new session and its
    one [GET], then another new session and its one [POST]. *)
Theorem X8_no_session_reuse (P : Platform) (net : Network)
    (url1 url2 : string) (opts1 opts2 : gmap string PyVal) (w : World) :
  is_Ok (legacy_context P) = true ->
  let w1 := snd (public_data_api_get P net url1 opts1 w) in
  let w2 := snd (public_data_api_post P net url2 opts2 w1) in
  let s1 := S (next_loc w) in
  let s2 := S (S (S (next_loc w))) in
  s1 <> s2 /\
  trace w2 =
    (trace w ++ [NewSession s1; Call "GET" s1 url1 opts1;
                 NewSession s2; Call "POST" s2 url2 opts2])%list /\
  (exists o1 o2,
     sessions w2 !! s1 = Some o1 /\ sessions w2 !! s2 = Some o2 /\
     headers o1 <> headers o2).
Proof.
  intros Hok. destruct (legacy_context P) as [ctx|e] eqn:Hctx; [|discriminate].
  intros w1 w2 s1 s2. subst w2 w1.
  rewrite (get_run P net url1 opts1 w ctx Hctx). cbn [snd].
  rewrite (post_run P net url2 opts2 _ ctx Hctx). cbn [snd next_loc trace sessions].
  split_and!.
  - subst s1 s2. lia.
  - subst s1 s2. by rewrite <- !app_assoc.
  - eexists _, _. split_and!.
    + subst s1. rewrite lookup_insert_ne by lia. apply lookup_insert_eq.
    + subst s2. apply lookup_insert_eq.
    + cbn [headers]. lia.
Qed.

Lemma X8_no_session_reuse_witness :
  trace (snd (public_data_api_post full_platform dead_network "https://b.example" ∅
           (snd (public_data_api_get full_platform dead_network "https://a.example" ∅
                   empty_world)))) =
  [ NewSession 1%nat; Call "GET" 1%nat "https://a.example" ∅;
    NewSession 3%nat; Call "POST" 3%nat "https://b.example" ∅ ].
Proof.
  refine (proj1 (proj2 (X8_no_session_reuse full_platform dead_network
                          "https://a.example" "https://b.example" ∅ ∅ empty_world _))).
  reflexivity.
Defined.

(** ** The store stays well formed *)

Lemma store_wf_trace (w : World) (t : list Event) :
  store_wf w ->
  store_wf {| next_loc := next_loc w; dicts := dicts w;
              sessions := sessions w; trace := t |}.
Proof. intros H. exact H. Qed.

Lemma store_wf_new_session (w : World) (d : CaseInsensitiveDict)
    (table : list (string * Adapter)) (t : list Event) :
  store_wf w ->
  store_wf {| next_loc := S (S (next_loc w));
              dicts := <[next_loc w := d]> (dicts w);
              sessions :=
                <[S (next_loc w) := {| headers := next_loc w; adapters := table |}]>
                  (sessions w);
              trace := t |}.
Proof.
  intros [Hd Hs]. split; cbn [next_loc dicts sessions].
  - intros l d'. rewrite lookup_insert. case_decide as Hl.
    + intros _. lia.
    + intros H. apply Hd in H. lia.
  - intros s o. rewrite lookup_insert. case_decide as Hl.
    + intros [= <-]. cbn [headers]. split; [lia|].
      rewrite lookup_insert_eq. by eexists.
    + intros H. destruct (Hs _ _ H) as [Hlt [d' Hd']]. split; [lia|].
      exists d'. rewrite lookup_insert_ne; [exact Hd'|].
      apply Hd in Hd'. lia.
Qed.

Lemma create_preserves_wf (P : Platform) (w : World) :
  store_wf w -> store_wf (snd (create_public_data_api_session P w)).
Proof.
  intros Hwf. destruct (legacy_context P) as [ctx|e] eqn:Hctx.
  - rewrite (create_run P _ w (new_adapter_configured P ctx Hctx)).
    by apply store_wf_new_session.
  - by rewrite (create_raise P e w (new_adapter_raises P e Hctx)).
Qed.

(** X9. The factory and the two request functions keep the store well
    formed, whether they return or raise.  In a well-formed store the
    session the factory returns is new, and every session that was there
    before is still there, with the header dictionary it had. *)
Theorem X9_store_invariant (P : Platform) (net : Network)
    (url : string) (opts : gmap string PyVal) (w : World) :
  store_wf w ->
  store_wf (snd (create_public_data_api_session P w)) /\
  store_wf (snd (public_data_api_get P net url opts w)) /\
  store_wf (snd (public_data_api_post P net url opts w)) /\
  (forall s w', create_public_data_api_session P w = (Ok s, w') ->
     sessions w !! s = None /\
     is_Some (session_headers w' s) /\
     forall s0 o, sessions w !! s0 = Some o ->
       sessions w' !! s0 = Some o /\
       session_headers w' s0 = session_headers w s0).
Proof.
  intros Hwf. split_and!.
  - by apply create_preserves_wf.
  - destruct (legacy_context P) as [ctx|e] eqn:Hctx.
    + rewrite (get_run P net url opts w ctx Hctx). cbn [snd].
      by apply store_wf_new_session.
    + unfold public_data_api_get.
      by rewrite (bind_Raise _ _ _ _ _ (create_raise P e w (new_adapter_raises P e Hctx))).
  - destruct (legacy_context P) as [ctx|e] eqn:Hctx.
    + rewrite (post_run P net url opts w ctx Hctx). cbn [snd].
      by apply store_wf_new_session.
    + unfold public_data_api_post.
      by rewrite (bind_Raise _ _ _ _ _ (create_raise P e w (new_adapter_raises P e Hctx))).
  - intros s w' H. destruct Hwf as [Hd Hs].
    pose proof (create_headers _ _ _ _ H) as Hh.
    destruct (create_store _ _ _ _ H) as (table & -> & _ & Hdicts & Hsess).
    split_and!.
    + destruct (sessions w !! S (next_loc w)) as [o|] eqn:Ho; [|reflexivity].
      apply Hs in Ho as [Hlt _]. lia.
    + rewrite Hh. by eexists.
    + intros s0 o Ho. destruct (Hs _ _ Ho) as [Hlt [d Hdo]].
      assert (Hkeep : sessions w' !! s0 = Some o).
      { rewrite Hsess, lookup_insert_ne by lia. exact Ho. }
      split; [exact Hkeep|].
      rewrite (session_headers_lookup _ _ _ Hkeep), (session_headers_lookup _ _ _ Ho).
      rewrite Hdicts. apply lookup_insert_ne. apply Hd in Hdo. lia.
Qed.

Lemma X9_store_invariant_witness :
  let w1 := snd (create_public_data_api_session full_platform empty_world) in
  store_wf w1 /\
  store_wf (snd (public_data_api_get full_platform dead_network "https://a.example" ∅ w1)) /\
  exists w2,
    create_public_data_api_session full_platform w1 = (Ok 3%nat, w2) /\
    session_headers w2 1%nat = session_headers w1 1%nat.
Proof.
  intros w1.
  assert (Hempty : store_wf empty_world).
  { split; cbn; intros ? ?; rewrite lookup_empty; discriminate. }
  assert (Hwf : store_wf w1).
  { exact (proj1 (X9_store_invariant full_platform dead_network "" ∅ empty_world Hempty)). }
  destruct (X9_store_invariant full_platform dead_network "https://a.example" ∅ w1 Hwf)
    as (_ & Hget & _ & Hframe).
  split; [exact Hwf|]. split; [exact Hget|].
  exists (snd (create_public_data_api_session full_platform w1)).
  assert (H2 : create_public_data_api_session full_platform w1 =
               (Ok 3%nat, snd (create_public_data_api_session full_platform w1)))
    by (vm_compute; reflexivity).
  split; [exact H2|].
  destruct (Hframe _ _ H2) as (_ & _ & Hold).
  refine (proj2 (Hold 1%nat _ _)).
  vm_compute. reflexivity.
Defined.

(** ** Which adapter serves a URL *)

(** X10. In a session from the factory, [get_adapter] decides by the
    scheme alone: the legacy-TLS adapter for [https://], the plain
    adapter for [http://], and [InvalidSchema] for every other URL; the
    factory mounts nothing else. *)
Theorem X10_get_adapter_by_scheme (P : Platform) (w w' : World) (s : loc) :
  create_public_data_api_session P w = (Ok s, w') ->
  exists o legacy,
    sessions w' !! s = Some o /\
    adapter_class legacy = PublicDataApiSSLAdapter /\
    is_Some (adapter_ssl_context legacy) /\
    forall url,
      get_adapter o url =
        if startswith "https://" (lower url) then Ok legacy
        else if startswith "http://" (lower url) then Ok plain_adapter
        else Raise (InvalidSchema url).
Proof.
  intros H. destruct (create_Ok _ _ _ _ H) as (ctx & _ & -> & _ & _ & Hs & _).
  set (legacy :=
         (legacy_adapter ctx)) in Hs.
  exists {| headers := next_loc w;
            adapters := [("https://", legacy); ("http://", plain_adapter)] |}, legacy.
  split; [rewrite Hs; apply lookup_insert_eq|].
  split; [reflexivity|]. split.
  { unfold adapter_ssl_context, legacy, legacy_adapter.
    cbn [poolmanager connection_pool_kw].
    rewrite lookup_insert_eq. by eexists. }
  intros url. unfold get_adapter. cbn [adapters]. rewrite find_adapter_two.
  destruct (startswith "https://" (lower url)); [reflexivity|].
  by destruct (startswith "http://" (lower url)).
Qed.

Lemma X10_get_adapter_by_scheme_witness :
  exists o,
    sessions (snd (create_public_data_api_session full_platform empty_world)) !! 1%nat
      = Some o /\
    get_adapter o "file:///etc/hosts" = Raise (InvalidSchema "file:///etc/hosts") /\
    get_adapter o "Http://data.go.kr" = Ok plain_adapter.
Proof.
  destruct (X10_get_adapter_by_scheme full_platform empty_world
              (snd (create_public_data_api_session full_platform empty_world)) 1%nat)
    as (o & legacy & Ho & _ & _ & Hget).
  - vm_compute. reflexivity.
  - exists o. split; [exact Ho|]. split; rewrite Hget; reflexivity.
Defined.
